(** * AgentCiscoClient: a shallow embedding of [agent_client/cisco_agent.py]

    The client opens one netmiko session per call and sends a show command,
    a set of configuration lines or a ping.  The netmiko library and the
    device behind it are outside the repository: they appear here as an
    oracle that answers every library call, given the calls made so far.
    The three methods are written in a small state-and-exception monad
    over the client object, the list of library calls and the log. *)

From Stdlib Require Import String Ascii ZArith Bool Lia.
From stdpp Require Import gmap strings list fin_maps.

Local Open Scope string_scope.
Local Open Scope Z_scope.

(** ** Python strings

    A [str] is modelled by [string]; each [ascii] stands for the code point
    of the same number (the range below 256). *)

Module PyStr.

Definition LF : ascii := "010"%char.
Definition CR : ascii := "013"%char.

(** [str.isspace] on one character: TAB..CR, FS..US and space, NEL, NBSP. *)
Definition is_space (c : ascii) : bool :=
  let n := N_of_ascii c in
  ((9 <=? n) && (n <=? 13) || (28 <=? n) && (n <=? 32)
   || (n =? 133) || (n =? 160))%N.

(** The line boundaries of [str.splitlines]. *)
Definition is_linebreak (c : ascii) : bool :=
  let n := N_of_ascii c in
  ((10 <=? n) && (n <=? 13) || (28 <=? n) && (n <=? 30) || (n =? 133))%N.

(** Python truth value of a string: non-empty. *)
Definition truthy (s : string) : bool :=
  match s with EmptyString => false | String _ _ => true end.

Fixpoint lstrip (s : string) : string :=
  match s with
  | EmptyString => EmptyString
  | String c s' => if is_space c then lstrip s' else s
  end.

Fixpoint rstrip (s : string) : string :=
  match s with
  | EmptyString => EmptyString
  | String c s' =>
      match rstrip s' with
      | EmptyString => if is_space c then EmptyString else String c EmptyString
      | r => String c r
      end
  end.

(** [s.strip()] *)
Definition strip (s : string) : string := lstrip (rstrip s).

(** [s.split("\n")]: the pieces between line feeds, empty pieces kept. *)
Fixpoint split_lf (s : string) : list string :=
  match s with
  | EmptyString => [EmptyString]
  | String c s' =>
      if Ascii.eqb c LF then EmptyString :: split_lf s'
      else match split_lf s' with
           | piece :: rest => String c piece :: rest
           | [] => [String c EmptyString]
           end
  end.

(** [s.splitlines()]: [cur] is the line being read, [after_cr] tells that
    the previous character was a carriage return (a following line feed
    belongs to the same boundary). *)
Fixpoint splitlines_from (cur : string) (after_cr : bool) (s : string)
  : list string :=
  match s with
  | EmptyString => if truthy cur then [cur] else []
  | String c s' =>
      if after_cr && Ascii.eqb c LF then splitlines_from EmptyString false s'
      else if is_linebreak c
           then cur :: splitlines_from EmptyString (Ascii.eqb c CR) s'
           else splitlines_from (cur +:+ String c EmptyString) false s'
  end.

Definition splitlines (s : string) : list string :=
  splitlines_from EmptyString false s.

(** [s.startswith(p)] *)
Definition startswith (s p : string) : bool := String.prefix p s.

(** [sub in s] *)
Fixpoint contains (sub s : string) : bool :=
  String.prefix sub s
  || match s with
     | EmptyString => false
     | String _ s' => contains sub s'
     end.

End PyStr.

(** ** Values, exceptions and the netmiko boundary *)

(** The Python values that are stored in the client, passed as credentials,
    interpolated in log messages and returned by the methods. *)
Inductive value :=
| VNone
| VStr (s : string)
| VList (l : list string).

(** The two netmiko exceptions the methods handle; every other exception
    class is [OtherException]. *)
Inductive exn :=
| NetmikoTimeoutException (msg : string)
| NetmikoAuthenticationException (msg : string)
| OtherException (cls msg : string).

(** The library calls the methods make.  [ConnectHandler] receives the
    dictionary that is unpacked into its keyword arguments; the send calls
    record the keyword arguments written at the call site ([None] for one
    that is not passed); [ctx_exit] is the [__exit__] of the [with]
    statement, which in netmiko closes the session like [disconnect];
    netmiko's [__enter__] returns the connection itself and touches
    nothing. *)
Inductive call :=
| ConnectHandler (kwargs : gmap string value)
| enable
| send_command (command_string : string) (read_timeout : option Z)
               (expect_string : option string)
               (strip_prompt strip_command : option bool)
| send_config_set (config_commands : list string) (read_timeout : option Z)
| disconnect
| ctx_exit (exc : option exn).

Inductive reply :=
| Returns (out : string)
| Raises (e : exn).

(** The library and the device: the answer to a call, given the calls of
    the running method so far. *)
Definition device : Type := list (call * reply) → call → reply.

(** ** The client object, the log and the monad *)

Record client := Client {
  device_info_cisco : gmap string value;
  device_info_linux : gmap string value;
  api_key : value
}.

Inductive level := DEBUG | INFO | WARNING | ERROR.

(** An f-string: literal text and interpolated expressions. *)
Inductive part :=
| lit (s : string)
| val (v : value)
| err (e : exn).

Record world := World {
  self : client;
  (** the local [commands] of [config_command], which is rebound inside
      the [with] block and read again by the handlers *)
  commands_local : value;
  calls : list (call * reply);
  logs : list (level * list part)
}.

Inductive outcome (A : Type) :=
| Normal (a : A)
| Raised (e : exn).
Arguments Normal {A} a.
Arguments Raised {A} e.

Definition M (A : Type) : Type := world → outcome A * world.

Definition ret {A} (a : A) : M A := fun w => (Normal a, w).

Definition raise {A} (e : exn) : M A := fun w => (Raised e, w).

Definition bind {A B} (m : M A) (k : A → M B) : M B :=
  fun w =>
    match m w with
    | (Normal a, w') => k a w'
    | (Raised e, w') => (Raised e, w')
    end.

Declare Scope py_scope.
Delimit Scope py_scope with py.
Notation "x <- m ;; k" := (bind m (fun x => k))
  (at level 100, m at next level, right associativity) : py_scope.
Notation "m ;; k" := (bind m (fun _ => k))
  (at level 100, right associativity) : py_scope.
Local Open Scope py_scope.

(** [try: body except ...]: [handler e] is the matching [except] clause,
    if there is one. *)
Definition try_except {A} (body : M A) (handler : exn → option (M A)) : M A :=
  fun w =>
    match body w with
    | (Normal a, w') => (Normal a, w')
    | (Raised e, w') =>
        match handler e with
        | Some h => h w'
        | None => (Raised e, w')
        end
    end.

(** [logging.basicConfig(level=logging.INFO)]: records below INFO are
    dropped. *)
Definition enabled (l : level) : bool :=
  match l with DEBUG => false | _ => true end.

Definition log (l : level) (msg : list part) : M unit :=
  fun w =>
    (Normal tt,
     if enabled l
     then World (self w) (commands_local w) (calls w) (logs w ++ [(l, msg)])
     else w).

(** [for x in xs: body x] *)
Fixpoint for_each {A} (xs : list A) (body : A → M unit) : M unit :=
  match xs with
  | [] => ret tt
  | x :: xs' => body x ;; for_each xs' body
  end.

Definition get_cisco : M (gmap string value) :=
  fun w => (Normal (device_info_cisco (self w)), w).

(** [d[k]]: raises [KeyError] on a missing key. *)
Definition getitem (d : gmap string value) (k : string) : M value :=
  match d !! k with
  | Some v => ret v
  | None => raise (OtherException "KeyError" k)
  end.

(** [self.device_info_cisco[k]] *)
Definition cisco (k : string) : M value :=
  fun w => getitem (device_info_cisco (self w)) k w.

(** [self.device_info_linux[k]] *)
Definition linux (k : string) : M value :=
  fun w => getitem (device_info_linux (self w)) k w.

(** [self.device_info_cisco[k] = v] *)
Definition set_cisco (k : string) (v : value) : M unit :=
  fun w =>
    (Normal tt,
     World (Client (<[k := v]> (device_info_cisco (self w)))
                   (device_info_linux (self w)) (api_key (self w)))
           (commands_local w) (calls w) (logs w)).

Definition get_commands : M value :=
  fun w => (Normal (commands_local w), w).

Definition set_commands (v : value) : M unit :=
  fun w => (Normal tt, World (self w) v (calls w) (logs w)).

Section Device.

Variable dev : device.

(** One library call: the oracle answers, the call is recorded. *)
Definition invoke (c : call) : M string :=
  fun w =>
    let r := dev (calls w) c in
    (match r with Returns out => Normal out | Raises e => Raised e end,
     World (self w) (commands_local w) (calls w ++ [(c, r)]) (logs w)).

(** [with ConnectHandler(...) as connection: body]: the session is
    opened, the body runs, and [__exit__] is called however the body ends;
    it does not swallow the body's exception. *)
Definition with_ConnectHandler {A} (kwargs : gmap string value) (body : M A)
  : M A :=
  invoke (ConnectHandler kwargs) ;;
  fun w =>
    match body w with
    | (Normal a, w') => (invoke (ctx_exit None) ;; ret a) w'
    | (Raised e, w') => (invoke (ctx_exit (Some e)) ;; raise e) w'
    end.

End Device.

(** ** The class [AgentCiscoClient] *)

(** [__init__]; [API_KEY] is what [os.getenv("API_KEY")] returns. *)
Definition __init__ (HOST USERNAME PASSWORD API_KEY : value) : client :=
  {| device_info_cisco :=
       <["device_type" := VStr "cisco_ios"]>
         (<["host" := HOST]>
            (<["username" := USERNAME]> (<["password" := PASSWORD]> ∅)));
     device_info_linux :=
       <["device_type" := VStr "linux"]>
         (<["host" := HOST]>
            (<["username" := USERNAME]> (<["password" := PASSWORD]> ∅)));
     api_key := API_KEY |}.

(** [[command.strip() for command in commands if command.strip()]] *)
Fixpoint stripped_nonblank (commands : list string) : list string :=
  match commands with
  | [] => []
  | command :: rest =>
      if PyStr.truthy (PyStr.strip command)
      then PyStr.strip command :: stripped_nonblank rest
      else stripped_nonblank rest
  end.

(** The command list [config_command] computes from its argument: a string
    is split on line feeds and filtered, then every list is filtered. *)
Definition normalize (commands : value) : option (list string) :=
  match commands with
  | VStr s => Some (stripped_nonblank (stripped_nonblank (PyStr.split_lf s)))
  | VList l => Some (stripped_nonblank l)
  | VNone => None
  end.

Definition timeout_result : value := VStr "Timeout error".
Definition authentication_result : value := VStr "Authentication error".
Definition invalid_ping_result : value :=
  VStr "Invalid command. Please use 'ping' command.".
Definition ping_failed_result : value :=
  VStr "Ping failed. No response received.".

(** The two [except] clauses, the same in the three methods; [what] reads
    the variable the message interpolates. *)
Definition handlers (what : M value) (e : exn) : option (M value) :=
  match e with
  | NetmikoTimeoutException _ =>
      Some (c <- what ;;
            h <- cisco "host" ;;
            log ERROR [lit "Timeout error while executing command '"; val c;
                       lit "' on "; val h; lit ": "; err e] ;;
            ret timeout_result)
  | NetmikoAuthenticationException _ =>
      Some (c <- what ;;
            h <- cisco "host" ;;
            log ERROR [lit "Authentication error while executing command '";
                       val c; lit "' on "; val h; lit ": "; err e] ;;
            ret authentication_result)
  | OtherException _ _ => None
  end.

Section Methods.

Variable dev : device.

Definition show_command (command : string) (HOST USERNAME PASSWORD : value)
  : M value :=
  try_except
    (set_cisco "host" HOST ;;
     set_cisco "username" USERNAME ;;
     set_cisco "password" PASSWORD ;;
     h <- cisco "host" ;;
     log INFO [lit "Connecting to "; val h;
               lit " with provided credentials."] ;;
     kwargs <- get_cisco ;;
     with_ConnectHandler dev kwargs
       (h <- cisco "host" ;;
        log INFO [lit "Connected to "; val h] ;;
        log INFO [lit "Sending command: "; val (VStr command)] ;;
        output <- invoke dev (send_command command (Some 20) None None None) ;;
        log DEBUG [lit "Command output:"] ;;
        for_each (PyStr.splitlines output)
                 (fun line => log DEBUG [val (VStr line)]) ;;
        invoke dev disconnect ;;
        h <- linux "host" ;;
        log INFO [lit "Disconnected from "; val h] ;;
        ret (VStr output)))
    (handlers (ret (VStr command))).

Definition config_command (commands : value) (HOST USERNAME PASSWORD : value)
  : M value :=
  set_commands commands ;;
  try_except
    (set_cisco "host" HOST ;;
     set_cisco "username" USERNAME ;;
     set_cisco "password" PASSWORD ;;
     kwargs <- get_cisco ;;
     with_ConnectHandler dev kwargs
       (h <- cisco "host" ;;
        log INFO [lit "Connected to "; val h] ;;
        log INFO [lit "Applying configuration commands: "; val commands] ;;
        invoke dev enable ;;
        (match commands with
         | VStr s =>
             set_commands (VList (stripped_nonblank (PyStr.split_lf s)))
         | _ => ret tt
         end) ;;
        commands <- get_commands ;;
        match commands with
        | VList l =>
            let commands := stripped_nonblank l in
            set_commands (VList commands) ;;
            match commands with
            | [] =>
                log WARNING [lit "No valid commands provided."] ;;
                ret VNone
            | _ =>
                output <- invoke dev (send_config_set commands None) ;;
                log INFO [lit "Configuration applied successfully."] ;;
                log DEBUG [lit "Configuration output: "; val (VStr output)] ;;
                invoke dev disconnect ;;
                h <- linux "host" ;;
                log INFO [lit "Disconnected from "; val h] ;;
                ret (VStr output)
            end
        | _ =>
            raise (OtherException "TypeError"
                                  "'NoneType' object is not iterable")
        end))
    (handlers get_commands).

Definition ping_cisco_command (command : string)
                              (HOST USERNAME PASSWORD : value) : M value :=
  try_except
    (if negb (PyStr.startswith command "ping")
     then ret invalid_ping_result
     else
       set_cisco "host" HOST ;;
       set_cisco "username" USERNAME ;;
       set_cisco "password" PASSWORD ;;
       kwargs <- get_cisco ;;
       with_ConnectHandler dev kwargs
         (h <- cisco "host" ;;
          log INFO [lit "Connected to "; val h] ;;
          log INFO [lit "Sending ping command: "; val (VStr command)] ;;
          output <- invoke dev (send_command command (Some 30) (Some "#")
                                             (Some false) (Some false)) ;;
          if PyStr.contains "!" output
          then ret (VStr output)
          else ret ping_failed_result))
    (handlers (ret (VStr command))).

End Methods.

(** One method call on the client [s]: the outcome and the final world
    (client fields, library calls made, log records emitted). *)
Definition exec {A} (m : M A) (s : client) : outcome A * world :=
  m (World s VNone [] []).

(** The three operations, to quantify over them. *)
Inductive operation :=
| Show (command : string)
| Configure (commands : value)
| Ping (command : string).

Definition run (dev : device) (op : operation) (HOST USERNAME PASSWORD : value)
  : M value :=
  match op with
  | Show command => show_command dev command HOST USERNAME PASSWORD
  | Configure commands => config_command dev commands HOST USERNAME PASSWORD
  | Ping command => ping_cisco_command dev command HOST USERNAME PASSWORD
  end.

(** A device that answers every call, with [out] for the send calls. *)
Definition responsive (out : string) : device :=
  fun _ c =>
    match c with
    | send_command _ _ _ _ _ | send_config_set _ _ => Returns out
    | _ => Returns ""
    end.

(** A device that accepts the session and then does not answer a command:
    the read of the send call times out, which netmiko reports with its
    ReadTimeout exception. *)
Definition silent : device :=
  fun _ c =>
    match c with
    | send_command _ _ _ _ _ | send_config_set _ _ =>
        Raises (OtherException "ReadTimeout" "Pattern not detected")
    | _ => Returns ""
    end.

(** The client after the three assignments that open every method. *)
Definition written (HOST USERNAME PASSWORD : value) (s : client) : client :=
  {| device_info_cisco :=
       <["password" := PASSWORD]>
         (<["username" := USERNAME]>
            (<["host" := HOST]> (device_info_cisco s)));
     device_info_linux := device_info_linux s;
     api_key := api_key s |}.

(** ** Observations on the library calls of a run *)

Definition is_send (c : call) : bool :=
  match c with
  | send_command _ _ _ _ _ | send_config_set _ _ => true
  | _ => false
  end.

(** The read deadline a call carries. *)
Definition deadline (c : call) : option Z :=
  match c with
  | send_command _ rt _ _ _ | send_config_set _ rt => rt
  | _ => None
  end.

Definition returned (cr : call * reply) : bool :=
  match snd cr with Returns _ => true | Raises _ => false end.

(** Sessions opened: [ConnectHandler] calls that returned a connection. *)
Definition opened (cr : call * reply) : bool :=
  match cr with
  | (ConnectHandler _, Returns _) => true
  | _ => false
  end.

Definition is_exit (cr : call * reply) : bool :=
  match fst cr with ctx_exit _ => true | _ => false end.

Definition is_disconnect (cr : call * reply) : bool :=
  match fst cr with disconnect => true | _ => false end.

Definition count {A} (p : A → bool) (l : list A) : nat :=
  length (List.filter p l).

(** Close requests on the session: explicit [disconnect()] calls and the
    [__exit__] of the context manager. *)
Definition closes (tr : list (call * reply)) : nat :=
  count is_disconnect tr + count is_exit tr.

(** The exception raised by the last library call that failed. *)
Fixpoint last_fault (tr : list (call * reply)) : option exn :=
  match tr with
  | [] => None
  | (_, r) :: tr' =>
      match last_fault tr' with
      | Some e => Some e
      | None => match r with Raises e => Some e | Returns _ => None end
      end
  end.

(** Send calls that returned. *)
Definition sent (cr : call * reply) : bool :=
  is_send (fst cr) && returned cr.

(** Does a method end by raising one of the two netmiko transport
    exceptions to its caller? *)
Definition propagates_transport_fault {A} (o : outcome A) : bool :=
  match o with
  | Raised (NetmikoTimeoutException _)
  | Raised (NetmikoAuthenticationException _) => true
  | _ => false
  end.

(** The string a method returns for the transport fault [e]. *)
Definition fault_result (e : exn) : option value :=
  match e with
  | NetmikoTimeoutException _ => Some timeout_result
  | NetmikoAuthenticationException _ => Some authentication_result
  | OtherException _ _ => None
  end.

(** Does the operation pass its input check before the credentials are
    stored?  Only ping has one. *)
Definition accepted (op : operation) : bool :=
  match op with
  | Ping command => PyStr.startswith command "ping"
  | _ => true
  end.

(** [sub] occurs somewhere in [s]. *)
Definition occurs (sub s : string) : Prop :=
  ∃ pre post, s = pre +:+ sub +:+ post.

(** What a run shows to its caller and to the outside: the outcome, the
    library calls and the log records. *)
Definition observed {A} (r : outcome A * world)
  : outcome A * list (call * reply) * list (level * list part) :=
  (fst r, calls (snd r), logs (snd r)).

(** Two worlds that a method cannot tell apart by what it returns or by
    the library calls it makes: the same connection parameters, the same
    local [commands], the same calls so far, and a host in
    [device_info_linux] in both or in neither.  The log and the other
    fields may differ. *)
Definition alike (w1 w2 : world) : Prop :=
  device_info_cisco (self w1) = device_info_cisco (self w2) ∧
  (device_info_linux (self w1) !! "host" = None
   ↔ device_info_linux (self w2) !! "host" = None) ∧
  commands_local w1 = commands_local w2 ∧
  calls w1 = calls w2.

(** Two finished computations: alike final worlds, the same exception, or
    results related by [S]. *)
Definition alike_ends {A} (S : A → A → Prop)
    (r1 r2 : outcome A * world) : Prop :=
  alike (snd r1) (snd r2) ∧
  match fst r1, fst r2 with
  | Normal x, Normal y => S x y
  | Raised e1, Raised e2 => e1 = e2
  | _, _ => False
  end.

(** Two computations that end alike from alike worlds. *)
Definition sim {A} (S : A → A → Prop) (m1 m2 : M A) : Prop :=
  ∀ w1 w2, alike w1 w2 → alike_ends S (m1 w1) (m2 w2).

Definition sim_handler {A} (S : A → A → Prop)
    (h1 h2 : option (M A)) : Prop :=
  match h1, h2 with
  | Some m1, Some m2 => sim S m1 m2
  | None, None => True
  | _, _ => False
  end.

Definition any {A} : A → A → Prop := fun _ _ => True.

(** The words of the specification, to compare with the code. *)
Module Spec.

Fixpoint first_word (s : string) : string :=
  match s with
  | EmptyString => EmptyString
  | String c s' =>
      if PyStr.is_space c then EmptyString else String c (first_word s')
  end.

(** The "leading token" of a command: its first whitespace-delimited
    word. *)
Definition leading_token (s : string) : string :=
  first_word (PyStr.lstrip s).

End Spec.

(** A client as a caller would build it, for the examples. *)
Definition lab_client : client :=
  __init__ (VStr "10.0.0.1") (VStr "admin") (VStr "cisco") VNone.

(** ** The class [AgentClient] of [agent_client/agent_connector.py]

    The older client: one dictionary read from the environment, no
    credentials per call, every exception turned into [None].  Its methods
    never assign to [self], so the object is a parameter of the
    computations and the client component of the world is not used. *)

Module Connector.

Record AgentClient := {
  device_info : gmap string value;
  api_key : value
}.

(** [__init__]; the arguments are what [os.getenv] returns for
    CISCO_HOST, CISCO_USERNAME, CISCO_PASSWORD and API_KEY. *)
Definition __init__ (CISCO_HOST CISCO_USERNAME CISCO_PASSWORD API_KEY : value)
  : AgentClient :=
  {| device_info :=
       <["device_type" := VStr "cisco_ios"]>
         (<["host" := CISCO_HOST]>
            (<["username" := CISCO_USERNAME]>
               (<["password" := CISCO_PASSWORD]> ∅)));
     api_key := API_KEY |}.

Section Methods.

Variable dev : device.

(** [isinstance(e, Exception)]: which exceptions derive from [Exception]
    is decided by the class hierarchy of the running program, which is a
    parameter here. *)
Variable is_Exception : exn → bool.

(** [except Exception as e:] with the message [msg host e] logged as an
    error, then [return None]. *)
Definition handler (self : AgentClient) (msg : value → exn → list part)
    (e : exn) : option (M value) :=
  if is_Exception e
  then Some (h <- getitem (device_info self) "host" ;;
             log ERROR (msg h e) ;;
             ret VNone)
  else None.

Definition show_command (self : AgentClient) (command : string) : M value :=
  try_except
    (with_ConnectHandler dev (device_info self)
       (h <- getitem (device_info self) "host" ;;
        log INFO [lit "Connected to "; val h] ;;
        log INFO [lit "Sending command: "; val (VStr command)] ;;
        output <- invoke dev (send_command command None None None None) ;;
        log DEBUG [lit "Command output:"] ;;
        for_each (PyStr.splitlines output)
                 (fun line => log DEBUG [val (VStr line)]) ;;
        ret (VStr output)))
    (handler self
       (fun h e => [lit "Failed to execute command '"; val (VStr command);
                    lit "' on "; val h; lit ": "; err e])).

Definition config_command (self : AgentClient) (commands : list string)
  : M value :=
  try_except
    (with_ConnectHandler dev (device_info self)
       (h <- getitem (device_info self) "host" ;;
        log INFO [lit "Connected to "; val h] ;;
        log INFO [lit "Applying configuration commands: ";
                  val (VList commands)] ;;
        invoke dev enable ;;
        output <- invoke dev (send_config_set commands None) ;;
        log INFO [lit "Configuration applied successfully."] ;;
        log DEBUG [lit "Configuration output: "; val (VStr output)] ;;
        ret (VStr output)))
    (handler self
       (fun h e => [lit "Failed to apply configuration on "; val h;
                    lit ": "; err e])).

End Methods.

(** The two methods, to quantify over them. *)
Inductive operation :=
| Show (command : string)
| Configure (commands : list string).

Definition run (dev : device) (is_Exception : exn → bool)
    (self : AgentClient) (op : operation) : M value :=
  match op with
  | Show command => show_command dev is_Exception self command
  | Configure commands => config_command dev is_Exception self commands
  end.

(** One method call: the world starts with no calls and an empty log. *)
Definition exec {A} (m : M A) : outcome A * world :=
  m (World (Client ∅ ∅ VNone) VNone [] []).

End Connector.


(** The output the device returned to the send call of a run, if one
    returned. *)
Definition sent_output (tr : list (call * reply)) : option string :=
  match last (List.filter sent tr) with
  | Some (_, Returns out) => Some out
  | _ => None
  end.

(** ** More observations on [AgentCiscoClient] *)

(** The clients a program can hold: built by the constructor, then used
    through the three methods, against any device. *)
Inductive reachable : client → Prop :=
| reach_init HOST USERNAME PASSWORD API_KEY :
    reachable (__init__ HOST USERNAME PASSWORD API_KEY)
| reach_call dev op HOST USERNAME PASSWORD s :
    reachable s →
    reachable (self (snd (exec (run dev op HOST USERNAME PASSWORD) s))).

(** The keyword arguments of a cisco_ios connection with the given
    credentials: four entries. *)
Definition connection_parameters (HOST USERNAME PASSWORD : value)
  : gmap string value :=
  <["device_type" := VStr "cisco_ios"]>
    (<["host" := HOST]>
       (<["username" := USERNAME]> (<["password" := PASSWORD]> ∅))).

(** The command argument of an operation, as a value. *)
Definition argument (op : operation) : value :=
  match op with
  | Show command | Ping command => VStr command
  | Configure commands => commands
  end.

(** The value of the local [commands] (or [command]) when a handler
    interpolates it: the argument, or the normalised list. *)
Definition current_commands (op : operation) (c : value) : Prop :=
  c = argument op ∨ ∃ l, normalize (argument op) = Some l ∧ c = VList l.

(** The log records a call can emit: the fixed texts of the source, with
    the host of the call, the command argument or the normalised list,
    the host stored in [device_info_linux], and, in the two error
    records, an exception that a library call of this run raised. *)
Inductive logged (op : operation) (HOST : value) (s : client)
    (tr : list (call * reply)) : level * list part → Prop :=
| log_connecting :
    logged op HOST s tr
      (INFO, [lit "Connecting to "; val HOST;
              lit " with provided credentials."])
| log_connected :
    logged op HOST s tr (INFO, [lit "Connected to "; val HOST])
| log_sending :
    logged op HOST s tr (INFO, [lit "Sending command: "; val (argument op)])
| log_sending_ping :
    logged op HOST s tr
      (INFO, [lit "Sending ping command: "; val (argument op)])
| log_applying :
    logged op HOST s tr
      (INFO, [lit "Applying configuration commands: "; val (argument op)])
| log_applied :
    logged op HOST s tr (INFO, [lit "Configuration applied successfully."])
| log_no_commands :
    logged op HOST s tr (WARNING, [lit "No valid commands provided."])
| log_disconnected lh :
    device_info_linux s !! "host" = Some lh →
    logged op HOST s tr (INFO, [lit "Disconnected from "; val lh])
| log_timeout c failed e :
    current_commands op c → (failed, Raises e) ∈ tr →
    logged op HOST s tr
      (ERROR, [lit "Timeout error while executing command '"; val c;
               lit "' on "; val HOST; lit ": "; err e])
| log_authentication c failed e :
    current_commands op c → (failed, Raises e) ∈ tr →
    logged op HOST s tr
      (ERROR, [lit "Authentication error while executing command '"; val c;
               lit "' on "; val HOST; lit ": "; err e]).

(** A call made on a client: the device it meets, the operation, and the
    host, username and password passed. *)
Definition invocation : Type := device * operation * (value * value * value).

(** The client after a series of calls. *)
Fixpoint after (history : list invocation) (s : client) : client :=
  match history with
  | [] => s
  | (dev, op, (HOST, USERNAME, PASSWORD)) :: rest =>
      after rest (self (snd (exec (run dev op HOST USERNAME PASSWORD) s)))
  end.

(** The credentials of the last call of a series that passed its input
    check, [c] when there is none. *)
Fixpoint stored_after (history : list invocation) (c : value * value * value)
  : value * value * value :=
  match history with
  | [] => c
  | (_, op, c') :: rest => stored_after rest (if accepted op then c' else c)
  end.

(** The characters of a string. *)
Fixpoint chars (s : string) : list ascii :=
  match s with
  | EmptyString => []
  | String c s' => c :: chars s'
  end.

(** A command line as the device should get it: not empty, and neither
    its first nor its last character is white space. *)
Definition clean (c : string) : Prop :=
  match head (chars c), last (chars c) with
  | Some a, Some b => PyStr.is_space a = false ∧ PyStr.is_space b = false
  | _, _ => False
  end.

(** The library calls an operation may make: show and ping open a
    session, send their one command with their own keyword arguments and
    close; configure opens, enables, sends a list and closes. *)
Definition permitted (op : operation) (c : call) : Prop :=
  match c with
  | ConnectHandler _ | ctx_exit _ => True
  | send_command c' rt es sp sc =>
      match op with
      | Show command =>
          c' = command ∧ rt = Some 20 ∧ es = None ∧ sp = None ∧ sc = None
      | Ping command =>
          c' = command ∧ rt = Some 30 ∧ es = Some "#" ∧
          sp = Some false ∧ sc = Some false
      | Configure _ => False
      end
  | enable | send_config_set _ _ =>
      match op with Configure _ => True | _ => False end
  | disconnect =>
      match op with Ping _ => False | _ => True end
  end.

(** ** Stepping through a method *)

(** A loop whose body only emits DEBUG records leaves the world as it is. *)
Lemma for_each_skip {A} (xs : list A) (w : world) :
  for_each xs (fun _ w' => (Normal tt, w')) w = (Normal tt, w).
Proof.
  induction xs as [|x xs IH]; [reflexivity|].
  cbn [for_each]. unfold bind. apply IH.
Qed.

Ltac unfold_py :=
  unfold exec, run, show_command, config_command, ping_cisco_command,
    try_except, with_ConnectHandler, handlers, bind, set_cisco, set_commands,
    get_commands, get_cisco, cisco, linux, getitem, invoke, log, ret, raise.

Ltac reduce_py :=
  cbn -[insert lookup PyStr.splitlines PyStr.split_lf PyStr.strip
        PyStr.startswith PyStr.contains stripped_nonblank for_each].

(** One step of a run: a dictionary read, a reply of the device, a branch
    on the input. *)
Ltac step dev :=
  first
    [ rewrite for_each_skip
    | progress (rewrite ?lookup_insert_ne by done; rewrite ?lookup_insert_eq)
    | match goal with
      | |- context [dev ?h ?c] =>
          let r := fresh "r" in
          let E := fresh "E" in
          destruct (dev h c) as [?|[?|?|?]] eqn:E
      end
    | match goal with
      | |- context [match ?m !! ?k with _ => _ end] =>
          destruct (m !! k) eqn:?
      | |- context [if negb ?b then _ else _] => destruct b eqn:?
      | |- context [if ?b then _ else _] => destruct b eqn:?
      | |- context [match stripped_nonblank ?l with _ => _ end] =>
          destruct (stripped_nonblank l) eqn:?
      end ];
  reduce_py.

Ltac run_py dev := unfold_py; reduce_py; repeat step dev.

(** To prove a property of [r := exec m s]: hide the property, follow every
    path of [m], and look at the property again on each final world. *)
Ltac explore dev r :=
  let Q := fresh "Q" in
  let HQ := fresh "HQ" in
  pattern r;
  match goal with |- ?P r => remember P as Q eqn:HQ end;
  subst r; run_py dev; subst Q; cbv beta.

(** ** Normalisation of configuration input *)

Module PyStrFacts.
Import PyStr.

Lemma rstrip_idem s : rstrip (rstrip s) = rstrip s.
Proof.
  induction s as [|c s IH]; [reflexivity|].
  cbn [rstrip]. destruct (rstrip s) as [|a r] eqn:E.
  - destruct (is_space c) eqn:Ec; [reflexivity|].
    cbn [rstrip]. now rewrite Ec.
  - cbn [rstrip] in IH |- *. now rewrite IH.
Qed.

Lemma rstrip_tail c s : rstrip (String c s) = String c s → rstrip s = s.
Proof.
  cbn [rstrip]. destruct (rstrip s) as [|a r] eqn:E.
  - destruct (is_space c); [discriminate|]. now intros [= <-].
  - now intros [= <-].
Qed.

(** Stripping on the left keeps a string that has no trailing space so. *)
Lemma rstrip_lstrip s : rstrip s = s → rstrip (lstrip s) = lstrip s.
Proof.
  induction s as [|c s IH]; [reflexivity|]. intros E.
  cbn [lstrip]. destruct (is_space c); [|exact E].
  apply IH. exact (rstrip_tail _ _ E).
Qed.

Lemma lstrip_idem s : lstrip (lstrip s) = lstrip s.
Proof.
  induction s as [|c s IH]; [reflexivity|].
  cbn [lstrip]. destruct (is_space c) eqn:Ec; [exact IH|].
  cbn [lstrip]. now rewrite Ec.
Qed.

Lemma strip_idem s : strip (strip s) = strip s.
Proof.
  unfold strip.
  rewrite (rstrip_lstrip (rstrip s)) by apply rstrip_idem.
  apply lstrip_idem.
Qed.

End PyStrFacts.

Lemma stripped_nonblank_idem l :
  stripped_nonblank (stripped_nonblank l) = stripped_nonblank l.
Proof.
  induction l as [|c l IH]; [reflexivity|].
  cbn [stripped_nonblank].
  destruct (PyStr.truthy (PyStr.strip c)) eqn:E; [|exact IH].
  cbn [stripped_nonblank].
  rewrite PyStrFacts.strip_idem, E. now rewrite IH.
Qed.

(** C7. A configuration given as one text block and the same configuration
    given as the list of the block's lines (the pieces between line feeds)
    normalise to the same command list, and normalising a normalised list
    again changes nothing. *)
Theorem normalize_block_or_lines (block : string) (commands : value) :
  normalize (VStr block) = normalize (VList (PyStr.split_lf block)) ∧
  normalize commands ≫= (fun l => normalize (VList l)) = normalize commands.
Proof.
  split.
  - cbn [normalize]. now rewrite stripped_nonblank_idem.
  - destruct commands as [|s|l]; cbn [normalize mbind option_bind];
      [reflexivity| |]; now rewrite stripped_nonblank_idem.
Qed.

(** ** What stepping through the methods gives *)

(** Cutting a finished list of calls at a [send_config_set]. *)
Ltac cut_trace pre H :=
  repeat (destruct pre as [|? pre]; cbn [app] in H;
          [ try discriminate H | injection H as ? H; subst ]);
  try (destruct pre; discriminate H).

(** The facts about every run of the three methods that the sections
    below use, read off the final world on each path. *)
Lemma run_facts dev op s HOST USERNAME PASSWORD :
  let r := exec (run dev op HOST USERNAME PASSWORD) s in
  let tr := calls (snd r) in
  (propagates_transport_fault (fst r) = false ∧
   match last_fault tr with
   | Some e =>
       fst r = match fault_result e with
               | Some v => Normal v
               | None => Raised e
               end
   | None => True
   end) ∧
  ((count opened tr ≤ 1)%nat ∧
   count is_exit tr = count opened tr ∧
   count is_disconnect tr
   = match op with Ping _ => 0%nat | _ => count sent tr end) ∧
  (Forall (fun cr =>
             if is_send (fst cr)
             then deadline (fst cr)
                  = match op with
                    | Show _ => Some 20
                    | Configure _ => None
                    | Ping _ => Some 30
                    end
             else True) tr ∧
   (count (is_send ∘ fst) tr ≤ 1)%nat) ∧
  self (snd r)
  = (if accepted op then written HOST USERNAME PASSWORD s else s).
Proof.
  intros r tr; subst tr.
  destruct op as [command|[|block|lines]|command]; explore dev r;
    cbn -[insert];
    try match goal with E : PyStr.startswith _ _ = _ |- _ => rewrite E end;
    repeat split; try lia; repeat constructor.
Qed.

(** The same for [config_command] alone: what is sent, what precedes it,
    and what happens on an input that normalises to nothing. *)
Lemma config_facts dev s commands HOST USERNAME PASSWORD :
  let r := exec (config_command dev commands HOST USERNAME PASSWORD) s in
  let tr := calls (snd r) in
  Forall (fun cr =>
            match fst cr with
            | send_config_set l rt =>
                normalize commands = Some l ∧ l ≠ [] ∧ rt = None
            | _ => True
            end) tr ∧
  (∀ pre lines rt rp post,
     tr = (pre ++ (send_config_set lines rt, rp) :: post)%list →
     ∃ kwargs o1 o2,
       pre = [(ConnectHandler kwargs, Returns o1); (enable, Returns o2)]) ∧
  (normalize commands = Some [] →
   head (map fst tr)
   = Some (ConnectHandler
             (device_info_cisco (written HOST USERNAME PASSWORD s))) ∧
   count (is_send ∘ fst) tr = 0%nat ∧
   match last_fault tr with
   | Some _ => True
   | None =>
       fst r = Normal VNone ∧
       map fst tr
       = [ConnectHandler
            (device_info_cisco (written HOST USERNAME PASSWORD s));
          enable; ctx_exit None] ∧
       last (logs (snd r))
       = Some (WARNING, [lit "No valid commands provided."])
   end).
Proof.
  intros r tr; subst tr.
  destruct commands as [|block|lines]; explore dev r;
    cbn [fst snd calls logs normalize]; (split; [|split]);
    try (repeat constructor; congruence);
    try (intros pre lines' rt rp post Htr; cut_trace pre Htr; eauto);
    intros Hn; try congruence; repeat split.
Qed.

(** ** Transport faults *)

(** C4, as the code has it. Whatever the session layer does, show,
    configure and ping never raise a NetmikoTimeoutException or a
    NetmikoAuthenticationException to the caller: when the last library
    call that failed raised one of the two, the method returns the
    matching string, "Timeout error" or "Authentication error".  A fault
    of any other class is not caught: when the last library call that
    failed raised one, the method raises it to the caller. *)
Theorem transport_faults_become_results dev op s HOST USERNAME PASSWORD :
  let r := exec (run dev op HOST USERNAME PASSWORD) s in
  propagates_transport_fault (fst r) = false ∧
  match last_fault (calls (snd r)) with
  | Some e =>
      fst r = match fault_result e with
              | Some v => Normal v
              | None => Raised e
              end
  | None => True
  end.
Proof. exact (proj1 (run_facts dev op s HOST USERNAME PASSWORD)). Qed.

(** C4, as the claim states it, fails: when the device does not answer a
    show command, the session layer raises its read timeout (in netmiko a
    ReadTimeout, which is not a NetmikoTimeoutException); neither
    [except] clause matches, and the exception is raised to the caller. *)
Lemma read_timeout_propagates_counterexample :
  let r := exec (show_command silent "show version" (VStr "192.0.2.1")
                   (VStr "admin") (VStr "cisco")) lab_client in
  fst r = Raised (OtherException "ReadTimeout" "Pattern not detected") ∧
  last_fault (calls (snd r))
  = Some (OtherException "ReadTimeout" "Pattern not detected") ∧
  map fst (calls (snd r))
  = [ConnectHandler (device_info_cisco (self (snd r)));
     send_command "show version" (Some 20) None None None;
     ctx_exit (Some (OtherException "ReadTimeout" "Pattern not detected"))].
Proof. vm_compute. repeat split. Qed.

(** ** Ping: the input check and the classification of the output *)

Lemma prefix_occurs p s :
  String.prefix p s = true ↔ ∃ post, s = p +:+ post.
Proof.
  revert s; induction p as [|a p IH]; intros s.
  - split; [intros _; now exists s | intros _; now destruct s].
  - destruct s as [|b s]; cbn [String.prefix String.append].
    + split; [discriminate | intros [post [=]]].
    + destruct (ascii_dec a b) as [->|Hab].
      * split.
        -- intros Hp. apply IH in Hp as [post ->]. now exists post.
        -- intros [post E]. injection E as ->.
           apply IH. now exists post.
      * split; [discriminate|]. intros [post E].
        cbn [String.append] in E. injection E as E1 E2. now subst.
Qed.

Lemma contains_unfold sub s :
  PyStr.contains sub s =
  String.prefix sub s
  || match s with
     | EmptyString => false
     | String _ s' => PyStr.contains sub s'
     end.
Proof. destruct s; reflexivity. Qed.

(** [sub in s] is true exactly when [sub] occurs in [s]. *)
Lemma contains_occurs sub s : PyStr.contains sub s = true ↔ occurs sub s.
Proof.
  unfold occurs. split.
  - induction s as [|c s IH]; rewrite contains_unfold, orb_true_iff.
    + intros [Hp|[=]]. apply prefix_occurs in Hp as [post ->].
      now exists EmptyString, post.
    + intros [Hp|Hc].
      * apply prefix_occurs in Hp as [post ->]. now exists EmptyString, post.
      * destruct (IH Hc) as (pre & post & ->). now exists (String c pre), post.
  - intros (pre & post & ->). induction pre as [|c pre IH].
    + rewrite contains_unfold, orb_true_iff. left.
      apply prefix_occurs. now exists post.
    + cbn [String.append]. rewrite contains_unfold, orb_true_iff.
      right. exact IH.
Qed.

Lemma ping_rejects dev s command HOST USERNAME PASSWORD :
  PyStr.startswith command "ping" = false →
  exec (ping_cisco_command dev command HOST USERNAME PASSWORD) s
  = (Normal invalid_ping_result, World s VNone [] []).
Proof.
  intros E. unfold exec, ping_cisco_command, try_except.
  rewrite E. reflexivity.
Qed.

(** The prefix test is the only gate: a command that passes it makes the
    method call ConnectHandler with the credentials of the call. *)
Lemma ping_accepted_connects dev s command HOST USERNAME PASSWORD :
  PyStr.startswith command "ping" = true →
  head (map fst (calls (snd (exec (ping_cisco_command dev command
                                     HOST USERNAME PASSWORD) s))))
  = Some (ConnectHandler
            (device_info_cisco (written HOST USERNAME PASSWORD s))).
Proof.
  intros E. set (r := exec _ s).
  explore dev r; try congruence; reflexivity.
Qed.

(** C2, as the code has it. A ping command that does not start with the
    four characters "ping" is rejected at once: the method returns the
    invalid-command message and leaves the world as it found it, so
    ConnectHandler is not called, nothing is logged and nothing is stored. *)
Theorem ping_without_prefix_rejected dev s command HOST USERNAME PASSWORD :
  PyStr.startswith command "ping" = false →
  exec (ping_cisco_command dev command HOST USERNAME PASSWORD) s
  = (Normal invalid_ping_result, World s VNone [] []).
Proof. exact (ping_rejects dev s command HOST USERNAME PASSWORD). Qed.

Lemma ping_without_prefix_rejected_witness :
  PyStr.startswith "show version" "ping" = false ∧
  exec (ping_cisco_command (responsive "!!!!!") "show version"
          (VStr "192.0.2.1") (VStr "admin") (VStr "cisco")) lab_client
  = (Normal invalid_ping_result, World lab_client VNone [] []).
Proof.
  split; [reflexivity|].
  apply (ping_without_prefix_rejected (responsive "!!!!!") lab_client
           "show version" (VStr "192.0.2.1") (VStr "admin") (VStr "cisco")).
  reflexivity.
Defined.

(** C2, as the claim states it, fails: the leading token of
    "pingx 10.0.0.1" is "pingx", not the ping verb, and yet the command
    passes the check, a session is opened and the command is sent. *)
Lemma ping_leading_token_counterexample :
  let command := "pingx 10.0.0.1" in
  let r := exec (ping_cisco_command (responsive "!!!!!") command
                   (VStr "192.0.2.1") (VStr "admin") (VStr "cisco"))
                lab_client in
  Spec.leading_token command = "pingx" ∧
  Spec.leading_token command ≠ "ping" ∧
  fst r = Normal (VStr "!!!!!") ∧
  map fst (calls (snd r))
  = [ConnectHandler (device_info_cisco (self (snd r)));
     send_command command (Some 30) (Some "#") (Some false) (Some false);
     ctx_exit None].
Proof. vm_compute. repeat split; discriminate. Qed.

(** Membership in the list of calls of a finished run. *)
Ltac in_trace H :=
  repeat (apply elem_of_cons in H as [H|H]; [simplify_eq|]);
  try (apply elem_of_nil in H; destruct H).

Lemma ping_failed_unmarked : PyStr.contains "!" "Ping failed. No response received." = false.
Proof. reflexivity. Qed.

(** C3. When the ping was sent and the device returned [out] (and no
    library call failed), the method returns [out] itself if "!" occurs
    anywhere in [out], and the "Ping failed. No response received."
    message if it does not; the failure message is returned exactly for
    the outputs without "!". *)
Theorem ping_classification dev s command HOST USERNAME PASSWORD out :
  let r := exec (ping_cisco_command dev command HOST USERNAME PASSWORD) s in
  (send_command command (Some 30) (Some "#") (Some false) (Some false),
   Returns out) ∈ calls (snd r) →
  last_fault (calls (snd r)) = None →
  (occurs "!" out → fst r = Normal (VStr out)) ∧
  (¬ occurs "!" out → fst r = Normal ping_failed_result) ∧
  (fst r = Normal ping_failed_result ↔ ¬ occurs "!" out).
Proof.
  intros r. explore dev r; cbn [fst snd calls last_fault];
    intros Hin Hlf; try discriminate Hlf; in_trace Hin;
    rewrite <- contains_occurs;
    match goal with E : PyStr.contains "!" _ = _ |- _ => rewrite E end.
  - repeat split; try congruence.
    intros [= ->]. rewrite ping_failed_unmarked in *. discriminate.
  - repeat split; congruence.
Qed.

Lemma ping_classification_witness :
  let r := exec (ping_cisco_command (responsive "!!!!!") "ping 10.0.0.1"
                   (VStr "192.0.2.1") (VStr "admin") (VStr "cisco"))
                lab_client in
  last_fault (calls (snd r)) = None ∧
  (occurs "!" "!!!!!" → fst r = Normal (VStr "!!!!!")) ∧
  (¬ occurs "!" "!!!!!" → fst r = Normal ping_failed_result) ∧
  (fst r = Normal ping_failed_result ↔ ¬ occurs "!" "!!!!!").
Proof.
  split; [reflexivity|].
  apply (ping_classification (responsive "!!!!!") lab_client "ping 10.0.0.1"
           (VStr "192.0.2.1") (VStr "admin") (VStr "cisco") "!!!!!").
  - apply list_elem_of_lookup. exists 1%nat. reflexivity.
  - reflexivity.
Defined.

(** ** Configure: normalised input, enable mode, empty input *)

(** The list [config_command] hands to [send_config_set] is the normalised
    input, it is not empty, and no read deadline is passed with it. *)
Lemma config_sends_normalized dev s commands HOST USERNAME PASSWORD :
  let r := exec (config_command dev commands HOST USERNAME PASSWORD) s in
  Forall (fun cr =>
            match fst cr with
            | send_config_set l rt =>
                normalize commands = Some l ∧ l ≠ [] ∧ rt = None
            | _ => True
            end) (calls (snd r)).
Proof. exact (proj1 (config_facts dev s commands HOST USERNAME PASSWORD)). Qed.

(** C1, as the code has it. On a configuration input that normalises to
    the empty list, [config_command] opens the connection first, with the
    credentials of the call; it never sends a configuration line; and when
    no library call fails it has made exactly the calls ConnectHandler,
    enable and the exit of the context manager, has logged the warning
    and returns None. *)
Theorem config_empty_input dev s commands HOST USERNAME PASSWORD :
  normalize commands = Some [] →
  let r := exec (config_command dev commands HOST USERNAME PASSWORD) s in
  head (map fst (calls (snd r)))
  = Some (ConnectHandler
            (device_info_cisco (written HOST USERNAME PASSWORD s))) ∧
  count (is_send ∘ fst) (calls (snd r)) = 0%nat ∧
  match last_fault (calls (snd r)) with
  | Some _ => True
  | None =>
      fst r = Normal VNone ∧
      map fst (calls (snd r))
      = [ConnectHandler (device_info_cisco (written HOST USERNAME PASSWORD s));
         enable; ctx_exit None] ∧
      last (logs (snd r)) = Some (WARNING, [lit "No valid commands provided."])
  end.
Proof.
  intros Hn.
  exact (proj2 (proj2 (config_facts dev s commands HOST USERNAME PASSWORD)) Hn).
Qed.

Lemma config_empty_input_witness :
  let r := exec (config_command (responsive "") (VStr "   ")
                   (VStr "192.0.2.1") (VStr "admin") (VStr "cisco"))
                lab_client in
  normalize (VStr "   ") = Some [] ∧
  head (map fst (calls (snd r)))
  = Some (ConnectHandler
            (device_info_cisco
               (written (VStr "192.0.2.1") (VStr "admin") (VStr "cisco")
                        lab_client))) ∧
  count (is_send ∘ fst) (calls (snd r)) = 0%nat ∧
  match last_fault (calls (snd r)) with
  | Some _ => True
  | None =>
      fst r = Normal VNone ∧
      map fst (calls (snd r))
      = [ConnectHandler
           (device_info_cisco
              (written (VStr "192.0.2.1") (VStr "admin") (VStr "cisco")
                       lab_client));
         enable; ctx_exit None] ∧
      last (logs (snd r)) = Some (WARNING, [lit "No valid commands provided."])
  end.
Proof.
  split; [reflexivity|].
  apply (config_empty_input (responsive "") lab_client (VStr "   ")
           (VStr "192.0.2.1") (VStr "admin") (VStr "cisco")).
  reflexivity.
Defined.

(** C1, as the claim states it, fails: on the blank input "   " the
    normalised list is empty, and the method has called ConnectHandler
    and enable before it returns None. *)
Lemma config_empty_input_counterexample :
  let r := exec (config_command (responsive "") (VStr "   ")
                   (VStr "192.0.2.1") (VStr "admin") (VStr "cisco"))
                lab_client in
  normalize (VStr "   ") = Some [] ∧
  fst r = Normal VNone ∧
  map fst (calls (snd r))
  = [ConnectHandler (device_info_cisco (self (snd r))); enable;
     ctx_exit None] ∧
  calls (snd r) ≠ [].
Proof. vm_compute. repeat split; discriminate. Qed.

(** C9. Whenever [config_command] sends configuration lines, the calls
    made before are exactly the opening of the session and an [enable]
    that returned: the session is elevated before any line is sent. *)
Theorem enable_before_configuration
    dev s commands HOST USERNAME PASSWORD pre lines rt rp post :
  calls (snd (exec (config_command dev commands HOST USERNAME PASSWORD) s))
  = (pre ++ (send_config_set lines rt, rp) :: post)%list →
  ∃ kwargs o1 o2,
    pre = [(ConnectHandler kwargs, Returns o1); (enable, Returns o2)].
Proof.
  exact (proj1 (proj2 (config_facts dev s commands HOST USERNAME PASSWORD))
           pre lines rt rp post).
Qed.

Lemma enable_before_configuration_witness :
  let kwargs :=
    device_info_cisco
      (written (VStr "192.0.2.1") (VStr "admin") (VStr "cisco") lab_client) in
  let pre := [(ConnectHandler kwargs, Returns ""); (enable, Returns "")] in
  let post := [(disconnect, Returns ""); (ctx_exit None, Returns "")] in
  calls (snd (exec (config_command (responsive "ok") (VList ["hostname R1"])
                      (VStr "192.0.2.1") (VStr "admin") (VStr "cisco"))
                   lab_client))
  = (pre ++ (send_config_set ["hostname R1"] None, Returns "ok") :: post)%list ∧
  ∃ kwargs' o1 o2,
    pre = [(ConnectHandler kwargs', Returns o1); (enable, Returns o2)].
Proof.
  intros kwargs pre post. split; [reflexivity|].
  apply (enable_before_configuration (responsive "ok") lab_client
           (VList ["hostname R1"]) (VStr "192.0.2.1") (VStr "admin")
           (VStr "cisco") pre ["hostname R1"] None (Returns "ok") post).
  reflexivity.
Defined.

(** ** Sessions are closed *)

(** C5, as the code has it. An operation opens at most one session, and
    the exit of the context manager, which closes the session, runs
    exactly once for an opened session on every path and never without
    one: no session is leaked.  Show and configure also call
    [disconnect()] themselves once their send call has returned, so on
    those paths the session is asked to close twice; ping never does. *)
Theorem session_closed_on_every_path dev op s HOST USERNAME PASSWORD :
  let tr := calls (snd (exec (run dev op HOST USERNAME PASSWORD) s)) in
  (count opened tr ≤ 1)%nat ∧
  count is_exit tr = count opened tr ∧
  closes tr
  = (count opened tr
     + match op with Ping _ => 0 | _ => count sent tr end)%nat.
Proof.
  intros tr. unfold closes.
  destruct (run_facts dev op s HOST USERNAME PASSWORD)
    as (_ & (Hle & Hexit & Hdis) & _).
  fold tr in Hle, Hexit, Hdis. repeat split; [exact Hle|exact Hexit|].
  rewrite Hexit, Hdis. lia.
Qed.

(** C5, as the claim states it, fails: a show command on a device that
    answers opens one session and closes it twice, by [disconnect()] and
    by the exit of the context manager. *)
Lemma session_closed_twice_counterexample :
  let tr := calls (snd (exec (show_command (responsive "ok") "show version"
                                (VStr "192.0.2.1") (VStr "admin")
                                (VStr "cisco")) lab_client)) in
  count opened tr = 1%nat ∧ closes tr = 2%nat ∧
  map snd tr = [Returns ""; Returns "ok"; Returns ""; Returns ""] ∧
  List.filter (fun c => negb (opened (c, Returns ""))) (map fst tr)
  = [send_command "show version" (Some 20) None None None; disconnect;
     ctx_exit None].
Proof. vm_compute. repeat split. Qed.

(** ** Read deadlines *)

(** C6, as the code has it. Show sends its command with a read deadline
    of 20 seconds and ping with 30; configure passes no deadline of its
    own to [send_config_set].  No operation sends more than once (there is
    no retry).  A NetmikoTimeoutException raised last by the session
    layer makes the operation return "Timeout error"; a timeout that the
    session layer raises as an exception of another class is raised to
    the caller. *)
Theorem read_deadlines dev op s HOST USERNAME PASSWORD :
  let r := exec (run dev op HOST USERNAME PASSWORD) s in
  Forall (fun cr =>
            if is_send (fst cr)
            then deadline (fst cr)
                 = match op with
                   | Show _ => Some 20
                   | Configure _ => None
                   | Ping _ => Some 30
                   end
            else True) (calls (snd r)) ∧
  (count (is_send ∘ fst) (calls (snd r)) ≤ 1)%nat ∧
  match last_fault (calls (snd r)) with
  | Some (NetmikoTimeoutException _) => fst r = Normal timeout_result
  | Some (OtherException cls msg) => fst r = Raised (OtherException cls msg)
  | _ => True
  end.
Proof.
  intros r.
  destruct (run_facts dev op s HOST USERNAME PASSWORD)
    as ((_ & Hf) & _ & (Hd & Hone) & _).
  fold r in Hf, Hd, Hone. repeat split; [exact Hd|exact Hone|].
  destruct (last_fault (calls (snd r))) as [[m|m|c m]|]; try exact I;
    exact Hf.
Qed.

(** C6, as the claim states it, fails for configure: the one send call of
    a configure run carries no read deadline, not 20 seconds. *)
Lemma configure_deadline_counterexample :
  let tr := calls (snd (exec (config_command (responsive "ok")
                                (VList ["hostname R1"]) (VStr "192.0.2.1")
                                (VStr "admin") (VStr "cisco")) lab_client)) in
  List.filter is_send (map fst tr) = [send_config_set ["hostname R1"] None] ∧
  map deadline (List.filter is_send (map fst tr)) = [None] ∧
  map deadline (List.filter is_send (map fst tr)) ≠ [Some 20].
Proof. vm_compute. repeat split. discriminate. Qed.

(** ** The stored credentials *)

(** Storing the credentials of a call over stored credentials gives the
    same dictionary as storing them over what was there before. *)
Lemma overwrite_twice (d : gmap string value) H U P h u p :
  <["password" := P]> (<["username" := U]> (<["host" := H]>
    (<["password" := p]> (<["username" := u]> (<["host" := h]> d)))))
  = <["password" := P]> (<["username" := U]> (<["host" := H]> d)).
Proof.
  apply map_eq; intros k.
  rewrite !lookup_insert. repeat case_decide; congruence.
Qed.

(** A method that passes its input check does not see what was stored
    under the three credential keys before. *)
Lemma exec_after_written dev op s H U P h u p :
  accepted op = true →
  exec (run dev op H U P) (written h u p s) = exec (run dev op H U P) s.
Proof.
  intros Hacc.
  destruct op as [command|commands|command]; cbn [accepted] in Hacc;
    unfold exec, run, show_command, config_command, ping_cisco_command,
      try_except, bind, set_cisco, set_commands, get_cisco, cisco, written;
    rewrite ?Hacc; cbn [negb self device_info_cisco device_info_linux api_key
                        commands_local calls logs];
    rewrite overwrite_twice; reflexivity.
Qed.

(** C8, as the code has it. Every operation that passes its input check
    stores the host, username and password of the call in
    [device_info_cisco], over the stored ones (a ping that is rejected
    stores nothing), and changes no other field of the client.  Since the
    three are stored before they are read, what a call returns, the
    library calls it makes and what it logs do not depend on the
    credentials an earlier call has stored. *)
Theorem stored_credentials_overwritten dev op s HOST USERNAME PASSWORD :
  let s' := self (snd (exec (run dev op HOST USERNAME PASSWORD) s)) in
  device_info_linux s' = device_info_linux s ∧
  api_key s' = api_key s ∧
  device_info_cisco s'
  = (if accepted op
     then <["password" := PASSWORD]>
            (<["username" := USERNAME]>
               (<["host" := HOST]> (device_info_cisco s)))
     else device_info_cisco s) ∧
  ∀ h u p,
    observed (exec (run dev op HOST USERNAME PASSWORD) (written h u p s))
    = observed (exec (run dev op HOST USERNAME PASSWORD) s).
Proof.
  intros s'. subst s'.
  destruct (run_facts dev op s HOST USERNAME PASSWORD) as (_ & _ & _ & ->).
  destruct (accepted op) eqn:Hacc; repeat split; intros h u p.
  - now rewrite exec_after_written.
  - destruct op as [c|c|c]; try discriminate Hacc. cbn [accepted] in Hacc.
    unfold run. now rewrite !ping_rejects.
Qed.

(** C8, as the claim states it, fails: after a show command for another
    device the client stores the host of that call, not the one it had. *)
Lemma stored_credentials_counterexample :
  let s' := self (snd (exec (show_command (responsive "ok") "show version"
                               (VStr "192.0.2.1") (VStr "operator")
                               (VStr "secret")) lab_client)) in
  device_info_cisco lab_client !! "host" = Some (VStr "10.0.0.1") ∧
  device_info_cisco s' !! "host" = Some (VStr "192.0.2.1") ∧
  device_info_cisco s' !! "username" = Some (VStr "operator") ∧
  device_info_cisco s' !! "password" = Some (VStr "secret") ∧
  s' ≠ lab_client.
Proof.
  vm_compute. repeat split. discriminate.
Qed.

(** ** The constructor's credentials *)

Section Alike.

Variable dev : device.

Lemma sim_ret {A} (S : A → A → Prop) x y : S x y → sim S (ret x) (ret y).
Proof. intros HS w1 w2 Hw. now split. Qed.

Lemma sim_raise {A} (S : A → A → Prop) e : sim S (raise e) (raise e).
Proof. intros w1 w2 Hw. now split. Qed.

Lemma sim_bind {A B} (S : A → A → Prop) (T : B → B → Prop) m1 m2 k1 k2 :
  sim S m1 m2 → (∀ x y, S x y → sim T (k1 x) (k2 y)) →
  sim T (bind m1 k1) (bind m2 k2).
Proof.
  intros Hm Hk w1 w2 Hw. unfold bind.
  destruct (Hm w1 w2 Hw) as [Hw' Ho].
  destruct (m1 w1) as [[x|e1] w1'], (m2 w2) as [[y|e2] w2'];
    cbn [fst snd] in *; try contradiction.
  - now apply Hk.
  - now split.
Qed.

Lemma sim_log l1 m1 l2 m2 : sim any (log l1 m1) (log l2 m2).
Proof.
  intros w1 w2 Hw. split; [|exact I]. unfold log; cbn [snd].
  destruct (enabled l1), (enabled l2); exact Hw.
Qed.

Lemma sim_cisco k : sim eq (cisco k) (cisco k).
Proof.
  intros w1 w2 Hw. unfold cisco, getitem.
  destruct Hw as (Hc & Hrest). rewrite Hc.
  destruct (device_info_cisco (self w2) !! k);
    (split; [now split | reflexivity]).
Qed.

Lemma sim_get_cisco : sim eq get_cisco get_cisco.
Proof. intros w1 w2 Hw. split; [exact Hw | apply Hw]. Qed.

Lemma sim_linux_host : sim any (linux "host") (linux "host").
Proof.
  intros w1 w2 Hw. unfold linux, getitem.
  assert (Hl := proj1 (proj2 Hw)).
  destruct (device_info_linux (self w1) !! "host") as [x|],
           (device_info_linux (self w2) !! "host") as [y|].
  - now split.
  - destruct Hl as [_ Hl]. now specialize (Hl eq_refl).
  - destruct Hl as [Hl _]. now specialize (Hl eq_refl).
  - now split.
Qed.

Lemma sim_get_commands : sim eq get_commands get_commands.
Proof. intros w1 w2 Hw. split; [exact Hw | apply Hw]. Qed.

Lemma sim_set_commands v : sim any (set_commands v) (set_commands v).
Proof.
  intros w1 w2 (Hc & Hl & _ & Ht). unfold set_commands.
  split; [|exact I]. exact (conj Hc (conj Hl (conj eq_refl Ht))).
Qed.

Lemma sim_invoke c : sim eq (invoke dev c) (invoke dev c).
Proof.
  intros w1 w2 (Hc & Hl & Hk & Ht). unfold invoke.
  rewrite Ht.
  destruct (dev (calls w2) c);
    (split; [exact (conj Hc (conj Hl (conj Hk eq_refl))) | reflexivity]).
Qed.

Lemma sim_for_each {A} (xs : list A) f g :
  (∀ x, sim any (f x) (g x)) → sim any (for_each xs f) (for_each xs g).
Proof.
  intros Hfg. induction xs as [|x xs IH]; cbn [for_each].
  - now apply sim_ret.
  - eapply sim_bind; [apply Hfg | intros _ _ _; exact IH].
Qed.

Lemma sim_with {A} (S : A → A → Prop) kwargs b1 b2 :
  sim S b1 b2 →
  sim S (with_ConnectHandler dev kwargs b1) (with_ConnectHandler dev kwargs b2).
Proof.
  intros Hb. unfold with_ConnectHandler.
  eapply sim_bind; [apply sim_invoke|]. intros _ _ _ w1 w2 Hw.
  destruct (Hb w1 w2 Hw) as [Hw' Ho].
  destruct (b1 w1) as [[x|e1] w1'], (b2 w2) as [[y|e2] w2'];
    cbn [fst snd] in *; try contradiction.
  - apply (sim_bind eq S); [apply sim_invoke | | exact Hw'].
    intros _ _ _. now apply sim_ret.
  - subst e2.
    apply (sim_bind eq S); [apply sim_invoke | | exact Hw'].
    intros _ _ _. apply sim_raise.
Qed.

Lemma sim_try {A} (S : A → A → Prop) b1 b2 h1 h2 :
  sim S b1 b2 → (∀ e, sim_handler S (h1 e) (h2 e)) →
  sim S (try_except b1 h1) (try_except b2 h2).
Proof.
  intros Hb Hh w1 w2 Hw. unfold try_except.
  destruct (Hb w1 w2 Hw) as [Hw' Ho].
  destruct (b1 w1) as [[x|e1] w1'], (b2 w2) as [[y|e2] w2'];
    cbn [fst snd] in *; try contradiction.
  - now split.
  - subst e2. specialize (Hh e1). unfold sim_handler in Hh.
    destruct (h1 e1), (h2 e1); try contradiction.
    + now apply Hh.
    + now split.
Qed.

Lemma sim_handlers what1 what2 e :
  sim eq what1 what2 → sim_handler eq (handlers what1 e) (handlers what2 e).
Proof.
  intros Hw. destruct e; cbn [handlers sim_handler]; try exact I;
    (eapply sim_bind; [exact Hw|]; intros c ? <-;
     eapply sim_bind; [apply sim_cisco|]; intros h ? <-;
     eapply sim_bind; [apply sim_log|]; intros _ _ _;
     now apply sim_ret).
Qed.

End Alike.

(** One step of a proof that two runs of the same code are alike. *)
Ltac sim_step dev :=
  first
    [ apply sim_try; [|intros ?; apply sim_handlers]
    | apply sim_with
    | apply sim_raise
    | apply sim_get_commands
    | apply sim_ret; reflexivity
    | eapply sim_bind;
      [ first [ apply sim_cisco | apply sim_get_cisco | apply sim_linux_host
              | apply sim_log | apply sim_get_commands | apply sim_set_commands
              | apply (sim_invoke dev)
              | apply sim_for_each; intros ?; apply sim_log
              | apply (sim_ret eq); reflexivity ]
      | let x := fresh "x" in
        let HS := fresh "HS" in
        intros x ? HS; try destruct HS ]
    | match goal with
      | |- sim _ (match ?x with _ => _ end) _ => destruct x
      end
    | progress cbv zeta ].

Lemma alike_ends_same {A} (r1 r2 : outcome A * world) :
  alike_ends eq r1 r2 → fst r1 = fst r2 ∧ calls (snd r1) = calls (snd r2).
Proof.
  intros [(_ & _ & _ & Ht) Ho]. split; [|exact Ht].
  destruct (fst r1), (fst r2); try contradiction; now subst.
Qed.

(** The three assignments that open a [try] block, done. *)
Lemma sets_then {A} (K : M A) h H U P w :
  try_except (set_cisco "host" H ;; set_cisco "username" U ;;
              set_cisco "password" P ;; K) h w
  = try_except K h
      (World (written H U P (self w)) (commands_local w) (calls w) (logs w)).
Proof. reflexivity. Qed.

Lemma set_commands_then {A} (T : M A) v w :
  (set_commands v ;; T) w = T (World (self w) v (calls w) (logs w)).
Proof. reflexivity. Qed.

(** Two clients that store the same connection parameters once the
    credentials of the call are written, and that both have (or both lack)
    a host in [device_info_linux], return the same value and make the same
    library calls. *)
(** From two runs of one computation to the computation. *)
Ltac to_sim Hw :=
  cbn [self commands_local calls logs];
  match goal with
  | |- alike_ends eq (?T ?w1) (?T ?w2) =>
      cut (sim eq T T); [intros Hs; exact (Hs _ _ (Hw _))|]
  end.

Lemma same_connection dev op a b HOST USERNAME PASSWORD :
  device_info_cisco (written HOST USERNAME PASSWORD a)
  = device_info_cisco (written HOST USERNAME PASSWORD b) →
  (device_info_linux a !! "host" = None
   ↔ device_info_linux b !! "host" = None) →
  let ra := exec (run dev op HOST USERNAME PASSWORD) a in
  let rb := exec (run dev op HOST USERNAME PASSWORD) b in
  fst ra = fst rb ∧ calls (snd ra) = calls (snd rb).
Proof.
  intros Hd Hl ra rb; subst ra rb.
  assert (Hw : ∀ c, alike
            (World (written HOST USERNAME PASSWORD a) c [] [])
            (World (written HOST USERNAME PASSWORD b) c [] []))
    by (intros c; exact (conj Hd (conj Hl (conj eq_refl eq_refl)))).
  unfold exec, run.
  destruct op as [command|commands|command].
  - apply alike_ends_same. unfold show_command. rewrite !sets_then.
    to_sim Hw. repeat sim_step dev.
  - apply alike_ends_same. unfold config_command.
    rewrite !set_commands_then, !sets_then.
    to_sim Hw. destruct commands; repeat sim_step dev.
  - unfold ping_cisco_command.
    destruct (PyStr.startswith command "ping"); cbn [negb].
    + apply alike_ends_same. rewrite !sets_then.
      to_sim Hw. repeat sim_step dev.
    + split; reflexivity.
Qed.

(** Whatever credentials two clients were constructed with, the same call
    returns the same value and makes the same library calls on both. *)
Lemma constructor_credentials_unused
    dev op HOST USERNAME PASSWORD h1 u1 p1 k1 h2 u2 p2 k2 :
  let ra := exec (run dev op HOST USERNAME PASSWORD) (__init__ h1 u1 p1 k1) in
  let rb := exec (run dev op HOST USERNAME PASSWORD) (__init__ h2 u2 p2 k2) in
  fst ra = fst rb ∧ calls (snd ra) = calls (snd rb).
Proof.
  apply same_connection.
  - unfold written, __init__; cbn [device_info_cisco].
    apply map_eq; intros k.
    rewrite !lookup_insert. repeat case_decide; congruence.
  - unfold __init__; cbn [device_info_linux].
    rewrite !lookup_insert_ne, !lookup_insert_eq by done.
    split; discriminate.
Qed.

(** C10 at a failing input. Two clients constructed for different hosts
    run the same show command with the same credentials on a device that
    answers: the value returned and the library calls are the same, but
    the last log record names the host each client was constructed with,
    read from [device_info_linux], not the host of the call. *)
Lemma constructor_host_logged :
  let a := __init__ (VStr "10.0.0.1") (VStr "admin") (VStr "cisco") VNone in
  let b := __init__ (VStr "10.0.0.9") (VStr "admin") (VStr "cisco") VNone in
  let m := show_command (responsive "ok") "show version"
             (VStr "192.0.2.1") (VStr "operator") (VStr "secret") in
  fst (exec m a) = fst (exec m b) ∧
  calls (snd (exec m a)) = calls (snd (exec m b)) ∧
  last (logs (snd (exec m a)))
  = Some (INFO, [lit "Disconnected from "; val (VStr "10.0.0.1")]) ∧
  last (logs (snd (exec m b)))
  = Some (INFO, [lit "Disconnected from "; val (VStr "10.0.0.9")]) ∧
  logs (snd (exec m a)) ≠ logs (snd (exec m b)).
Proof. vm_compute. repeat split. discriminate. Qed.

(** ** More on the runs of [AgentCiscoClient] *)

(** One interpolated value of a log record is allowed. *)
(** The local [commands] at the time a handler logs it. *)
Ltac commands_now :=
  first
    [ left; reflexivity
    | right; eexists; split; [|reflexivity];
      cbn [normalize argument];
      repeat match goal with
             | E : stripped_nonblank _ = _ |- _ => rewrite E
             end;
      reflexivity ].

(** One record of the log of a finished run is one the source writes. *)
Ltac logged_record :=
  first
    [ apply log_connecting | apply log_connected | apply log_sending
    | apply log_sending_ping | apply log_applying | apply log_applied
    | apply log_no_commands
    | eapply log_disconnected; eassumption
    | eapply log_timeout;
      [ commands_now
      | repeat first [apply list_elem_of_here | apply list_elem_of_further] ]
    | eapply log_authentication;
      [ commands_now
      | repeat first [apply list_elem_of_here | apply list_elem_of_further] ]
    ].

Lemma run_facts_more dev op s HOST USERNAME PASSWORD :
  let r := exec (run dev op HOST USERNAME PASSWORD) s in
  let tr := calls (snd r) in
  let kwargs := device_info_cisco (written HOST USERNAME PASSWORD s) in
  Forall (fun cr =>
            match fst cr with
            | ConnectHandler kwargs' => kwargs' = kwargs
            | _ => True
            end) tr ∧
  Forall (fun cr => permitted op (fst cr)) tr ∧
  Forall (logged op HOST s tr) (logs (snd r)) ∧
  (∀ lh, device_info_linux s !! "host" = Some lh →
     match fst r with
     | Raised e =>
         (last_fault tr = Some e ∧ fault_result e = None) ∨
         (op = Configure VNone ∧
          e = OtherException "TypeError" "'NoneType' object is not iterable")
     | Normal _ => True
     end) ∧
  (∀ lh, device_info_linux s !! "host" = Some lh → last_fault tr = None →
     match op with
     | Show command =>
         ∃ o1 out o3 o4,
           tr = [(ConnectHandler kwargs, Returns o1);
                 (send_command command (Some 20) None None None, Returns out);
                 (disconnect, Returns o3); (ctx_exit None, Returns o4)] ∧
           fst r = Normal (VStr out)
     | Configure commands =>
         ∀ c cs, normalize commands = Some (c :: cs) →
           ∃ o1 o2 out o4 o5,
             tr = [(ConnectHandler kwargs, Returns o1); (enable, Returns o2);
                   (send_config_set (c :: cs) None, Returns out);
                   (disconnect, Returns o4); (ctx_exit None, Returns o5)] ∧
             fst r = Normal (VStr out)
     | Ping _ => True
     end).
Proof.
  intros r tr kwargs; subst tr kwargs.
  destruct op as [command|[|block|lines]|command]; explore dev r;
    cbn [fst snd calls logs];
    (split;
     [ repeat constructor
     | split; [ repeat constructor |];
       split;
       [ repeat (constructor; [logged_record|]); constructor
       | split;
         [ intros lh Hlh; try exact I; try congruence;
           cbn [last_fault]; auto
         | intros lh Hlh Hlf; try exact I; try congruence;
           cbn [last_fault] in Hlf; try discriminate Hlf;
           try (intros c cs Hn; cbn [normalize] in Hn; try discriminate Hn;
                match goal with
                | E : stripped_nonblank _ = _ |- _ => rewrite E in Hn
                end;
                try discriminate Hn; injection Hn as <- <-);
           repeat eexists ]]]).
Qed.

(** ** The clients a program can hold *)

Lemma written_parameters HOST USERNAME PASSWORD h u p s :
  device_info_cisco s = connection_parameters h u p →
  device_info_cisco (written HOST USERNAME PASSWORD s)
  = connection_parameters HOST USERNAME PASSWORD.
Proof.
  intros E. unfold written, connection_parameters in *.
  cbn [device_info_cisco]. rewrite E.
  apply map_eq; intros k.
  rewrite !lookup_insert. repeat case_decide; congruence.
Qed.

Lemma reachable_shape s :
  reachable s →
  ∃ h u p h0 u0 p0,
    device_info_cisco s = connection_parameters h u p ∧
    device_info_linux s
    = <["device_type" := VStr "linux"]>
        (<["host" := h0]> (<["username" := u0]> (<["password" := p0]> ∅))).
Proof.
  induction 1 as [h u p k|dev op H U P s Hs IH].
  - now exists h, u, p, h, u, p.
  - destruct IH as (h & u & p & h0 & u0 & p0 & Ec & El).
    destruct (run_facts dev op s H U P) as (_ & _ & _ & ->).
    destruct (accepted op).
    + exists H, U, P, h0, u0, p0. split; [|exact El].
      exact (written_parameters H U P h u p s Ec).
    + now exists h, u, p, h0, u0, p0.
Qed.

Lemma reachable_linux_host s :
  reachable s → ∃ lh, device_info_linux s !! "host" = Some lh.
Proof.
  intros Hs. destruct (reachable_shape s Hs) as (h & u & p & h0 & u0 & p0 & _ & El).
  exists h0. rewrite El. now rewrite lookup_insert_ne, lookup_insert_eq.
Qed.

Lemma after_shape history s c :
  device_info_cisco s
  = (let '(h, u, p) := c in connection_parameters h u p) →
  device_info_linux (after history s) = device_info_linux s ∧
  api_key (after history s) = api_key s ∧
  device_info_cisco (after history s)
  = (let '(h, u, p) := stored_after history c in connection_parameters h u p).
Proof.
  revert s c. induction history as [|[[dev op] [[H U] P]] rest IH];
    intros s [[h u] p] Ec; cbn [after stored_after]; [now repeat split|].
  destruct (run_facts dev op s H U P) as (_ & _ & _ & ->).
  destruct (accepted op).
  - destruct (IH (written H U P s) (H, U, P)) as (El & Ek & Ec').
    + exact (written_parameters H U P h u p s Ec).
    + now repeat split.
  - exact (IH s (h, u, p) Ec).
Qed.

(** X1. A client is built by the constructor and then used through show,
    configure and ping, any number of times in any order, against any
    devices.  Then [device_info_linux] and [api_key] are exactly what the
    constructor stored, and [device_info_cisco] has exactly the four
    connection entries: device type cisco_ios and the host, username and
    password of the last call that passed its input check (those of the
    constructor when there was none). *)
Theorem constructed_client_invariant HOST USERNAME PASSWORD API_KEY history :
  let s := after history (__init__ HOST USERNAME PASSWORD API_KEY) in
  device_info_linux s
  = <["device_type" := VStr "linux"]>
      (<["host" := HOST]>
         (<["username" := USERNAME]> (<["password" := PASSWORD]> ∅))) ∧
  api_key s = API_KEY ∧
  device_info_cisco s
  = (let '(h, u, p) := stored_after history (HOST, USERNAME, PASSWORD) in
     connection_parameters h u p).
Proof.
  exact (after_shape history (__init__ HOST USERNAME PASSWORD API_KEY)
           (HOST, USERNAME, PASSWORD) eq_refl).
Qed.

(** X2. On every client a program can hold, whatever was stored before,
    each session a method opens is opened with exactly the credentials of
    that call and device type cisco_ios, and nothing else. *)
Theorem connects_with_call_credentials dev op s HOST USERNAME PASSWORD :
  reachable s →
  Forall (fun cr =>
            match fst cr with
            | ConnectHandler kwargs =>
                kwargs = connection_parameters HOST USERNAME PASSWORD
            | _ => True
            end)
         (calls (snd (exec (run dev op HOST USERNAME PASSWORD) s))).
Proof.
  intros Hs. destruct (reachable_shape s Hs) as (h & u & p &_&_&_& Ec & _).
  destruct (run_facts_more dev op s HOST USERNAME PASSWORD) as (Hc & _).
  rewrite (written_parameters HOST USERNAME PASSWORD h u p s Ec) in Hc.
  exact Hc.
Qed.

Lemma connects_with_call_credentials_witness :
  reachable lab_client ∧
  Forall (fun cr =>
            match fst cr with
            | ConnectHandler kwargs =>
                kwargs = connection_parameters (VStr "192.0.2.1")
                           (VStr "operator") (VStr "secret")
            | _ => True
            end)
         (calls (snd (exec (run (responsive "!!!!!") (Ping "ping 10.0.0.1")
                              (VStr "192.0.2.1") (VStr "operator")
                              (VStr "secret")) lab_client))).
Proof.
  assert (Hs : reachable lab_client) by apply reach_init.
  split; [exact Hs|].
  exact (connects_with_call_credentials (responsive "!!!!!")
           (Ping "ping 10.0.0.1") lab_client (VStr "192.0.2.1")
           (VStr "operator") (VStr "secret") Hs).
Defined.

(** X3. On every client a program can hold, a method adds no failure of
    its own: when
    it ends by raising, the exception is the one the last failing library
    call raised, of a class other than the two that are handled; the one
    exception is [config_command] called with None, which raises
    TypeError. *)
Theorem only_library_failures dev op s HOST USERNAME PASSWORD :
  reachable s →
  let r := exec (run dev op HOST USERNAME PASSWORD) s in
  match fst r with
  | Raised e =>
      (last_fault (calls (snd r)) = Some e ∧ fault_result e = None) ∨
      (op = Configure VNone ∧
       e = OtherException "TypeError" "'NoneType' object is not iterable")
  | Normal _ => True
  end.
Proof.
  intros Hs. destruct (reachable_linux_host s Hs) as [lh Hlh].
  destruct (run_facts_more dev op s HOST USERNAME PASSWORD)
    as (_ & _ & _ & Hr & _).
  exact (Hr lh Hlh).
Qed.

Lemma only_library_failures_witness :
  let dev : device :=
    fun _ c => match c with
               | send_command _ _ _ _ _ =>
                   Raises (OtherException "ReadTimeout" "pattern not found")
               | _ => Returns ""
               end in
  let r := exec (run dev (Show "show version") (VStr "192.0.2.1")
                   (VStr "operator") (VStr "secret")) lab_client in
  reachable lab_client ∧
  match fst r with
  | Raised e =>
      (last_fault (calls (snd r)) = Some e ∧ fault_result e = None) ∨
      (Show "show version" = Configure VNone ∧
       e = OtherException "TypeError" "'NoneType' object is not iterable")
  | Normal _ => True
  end.
Proof.
  intros dev r.
  assert (Hs : reachable lab_client) by apply reach_init.
  split; [exact Hs|].
  exact (only_library_failures dev (Show "show version") lab_client
           (VStr "192.0.2.1") (VStr "operator") (VStr "secret") Hs).
Defined.

(** ** What a successful call returns *)

(** X4. On every client a program can hold, when no library call fails,
    [show_command]
    has made exactly four calls (open the session with the credentials of
    the call, send the command with a read deadline of 20, disconnect,
    leave the context manager) and returns the output of the device as it
    came. *)
Theorem show_returns_output dev s command HOST USERNAME PASSWORD :
  reachable s →
  let r := exec (show_command dev command HOST USERNAME PASSWORD) s in
  last_fault (calls (snd r)) = None →
  ∃ o1 out o3 o4,
    calls (snd r)
    = [(ConnectHandler (connection_parameters HOST USERNAME PASSWORD),
        Returns o1);
       (send_command command (Some 20) None None None, Returns out);
       (disconnect, Returns o3); (ctx_exit None, Returns o4)] ∧
    fst r = Normal (VStr out).
Proof.
  intros Hs r Hlf. destruct (reachable_linux_host s Hs) as [lh Hlh].
  destruct (reachable_shape s Hs) as (h & u & p &_&_&_& Ec & _).
  destruct (run_facts_more dev (Show command) s HOST USERNAME PASSWORD)
    as (_ & _ & _ & _ & Hok).
  rewrite (written_parameters HOST USERNAME PASSWORD h u p s Ec) in Hok.
  exact (Hok lh Hlh Hlf).
Qed.

Lemma show_returns_output_witness :
  let r := exec (show_command (responsive "IOS 15.2") "show version"
                   (VStr "192.0.2.1") (VStr "operator") (VStr "secret"))
                lab_client in
  reachable lab_client ∧ last_fault (calls (snd r)) = None ∧
  ∃ o1 out o3 o4,
    calls (snd r)
    = [(ConnectHandler
          (connection_parameters (VStr "192.0.2.1") (VStr "operator")
             (VStr "secret")), Returns o1);
       (send_command "show version" (Some 20) None None None, Returns out);
       (disconnect, Returns o3); (ctx_exit None, Returns o4)] ∧
    fst r = Normal (VStr out).
Proof.
  intros r.
  assert (Hs : reachable lab_client) by apply reach_init.
  assert (Hlf : last_fault (calls (snd r)) = None) by reflexivity.
  split; [exact Hs|]. split; [exact Hlf|].
  exact (show_returns_output (responsive "IOS 15.2") lab_client
           "show version" (VStr "192.0.2.1") (VStr "operator")
           (VStr "secret") Hs Hlf).
Defined.

(** X5. On every client a program can hold, when the input normalises to
    a list that
    is not empty and no library call fails, [config_command] has made
    exactly five calls (open the session, enable, send the normalised
    list, disconnect, leave the context manager) and returns what
    [send_config_set] returned. *)
Theorem config_returns_output dev s commands HOST USERNAME PASSWORD c cs :
  reachable s →
  normalize commands = Some (c :: cs) →
  let r := exec (config_command dev commands HOST USERNAME PASSWORD) s in
  last_fault (calls (snd r)) = None →
  ∃ o1 o2 out o4 o5,
    calls (snd r)
    = [(ConnectHandler (connection_parameters HOST USERNAME PASSWORD),
        Returns o1);
       (enable, Returns o2);
       (send_config_set (c :: cs) None, Returns out);
       (disconnect, Returns o4); (ctx_exit None, Returns o5)] ∧
    fst r = Normal (VStr out).
Proof.
  intros Hs Hn r Hlf. destruct (reachable_linux_host s Hs) as [lh Hlh].
  destruct (reachable_shape s Hs) as (h & u & p &_&_&_& Ec & _).
  destruct (run_facts_more dev (Configure commands) s HOST USERNAME PASSWORD)
    as (_ & _ & _ & _ & Hok).
  rewrite (written_parameters HOST USERNAME PASSWORD h u p s Ec) in Hok.
  exact (Hok lh Hlh Hlf c cs Hn).
Qed.

Lemma config_returns_output_witness :
  let commands := VStr "interface Loopback0
  description lab

" in
  let r := exec (config_command (responsive "done") commands
                   (VStr "192.0.2.1") (VStr "operator") (VStr "secret"))
                lab_client in
  reachable lab_client ∧
  normalize commands = Some ["interface Loopback0"; "description lab"] ∧
  last_fault (calls (snd r)) = None ∧
  ∃ o1 o2 out o4 o5,
    calls (snd r)
    = [(ConnectHandler
          (connection_parameters (VStr "192.0.2.1") (VStr "operator")
             (VStr "secret")), Returns o1);
       (enable, Returns o2);
       (send_config_set ["interface Loopback0"; "description lab"] None,
        Returns out);
       (disconnect, Returns o4); (ctx_exit None, Returns o5)] ∧
    fst r = Normal (VStr out).
Proof.
  intros commands r.
  assert (Hs : reachable lab_client) by apply reach_init.
  assert (Hn : normalize commands
               = Some ["interface Loopback0"; "description lab"])
    by reflexivity.
  assert (Hlf : last_fault (calls (snd r)) = None) by reflexivity.
  split; [exact Hs|]. split; [exact Hn|]. split; [exact Hlf|].
  exact (config_returns_output (responsive "done") lab_client commands
           (VStr "192.0.2.1") (VStr "operator") (VStr "secret")
           "interface Loopback0" ["description lab"] Hs Hn Hlf).
Defined.

(** ** What is logged *)

(** X6. Every record a method writes to the log is one of the ten
    records of the source, with its fixed text; the values put into them
    are the host of the call, the command argument or the normalised
    command list, and the host stored in [device_info_linux]; and the
    exception in an error record is one that a library call of this run
    raised.  No record takes a username or a password. *)
Theorem credentials_not_logged dev op s HOST USERNAME PASSWORD :
  let r := exec (run dev op HOST USERNAME PASSWORD) s in
  Forall (logged op HOST s (calls (snd r))) (logs (snd r)).
Proof.
  exact (proj1 (proj2 (proj2
           (run_facts_more dev op s HOST USERNAME PASSWORD)))).
Qed.

(** ** The range of ping *)

(** X7. Whatever the device does, a value returned by
    [ping_cisco_command] is one of the four fixed messages (invalid
    command, ping failed, timeout, authentication error) or the output
    of the device, and then "!" occurs in it: output without the success
    marker is never returned. *)
Theorem ping_result_range dev s command HOST USERNAME PASSWORD :
  let r := exec (ping_cisco_command dev command HOST USERNAME PASSWORD) s in
  match fst r with
  | Normal v =>
      v ∈ [invalid_ping_result; ping_failed_result; timeout_result;
           authentication_result] ∨
      ∃ out, v = VStr out ∧ occurs "!" out ∧
             sent_output (calls (snd r)) = Some out
  | Raised _ => True
  end.
Proof.
  intros r. explore dev r; cbn [fst snd calls]; try exact I;
    try (left; set_solver).
  right. eexists. split; [reflexivity|]. split; [|reflexivity].
  now apply contains_occurs.
Qed.

(** ** What an operation never does *)

(** X8. Show and ping only read: they never call [enable] or
    [send_config_set], and the one command they send is the argument, as
    it is, with the keyword arguments of the call site.  Configure never
    calls [send_command], and ping never calls [disconnect()]. *)
Theorem only_permitted_calls dev op s HOST USERNAME PASSWORD :
  Forall (fun cr => permitted op (fst cr))
         (calls (snd (exec (run dev op HOST USERNAME PASSWORD) s))).
Proof.
  exact (proj1 (proj2 (run_facts_more dev op s HOST USERNAME PASSWORD))).
Qed.

(** X9. [config_command] called with None sends nothing: it opens the
    session and enters enable mode, and when those calls return it fails
    with TypeError, the context manager closing the session on the way
    out. *)
Theorem config_none_raises dev s HOST USERNAME PASSWORD :
  let r := exec (config_command dev VNone HOST USERNAME PASSWORD) s in
  count (is_send ∘ fst) (calls (snd r)) = 0%nat ∧
  match last_fault (calls (snd r)) with
  | Some _ => True
  | None =>
      fst r = Raised (OtherException "TypeError"
                        "'NoneType' object is not iterable") ∧
      map fst (calls (snd r))
      = [ConnectHandler (device_info_cisco (written HOST USERNAME PASSWORD s));
         enable;
         ctx_exit (Some (OtherException "TypeError"
                           "'NoneType' object is not iterable"))]
  end.
Proof. intros r. explore dev r; repeat split. Qed.

(** ** The lines that are sent *)

Module LineFacts.
Import PyStr.

Lemma lstrip_length s : (String.length (lstrip s) ≤ String.length s)%nat.
Proof.
  induction s as [|c s IH]; cbn [lstrip String.length]; [lia|].
  destruct (is_space c); cbn [String.length]; lia.
Qed.

Lemma lstrip_fixed_head c :
  lstrip c = c → c ≠ EmptyString →
  ∃ a, head (chars c) = Some a ∧ is_space a = false.
Proof.
  destruct c as [|a c]; [congruence|]. intros E _.
  exists a. split; [reflexivity|].
  cbn [lstrip] in E. destruct (is_space a); [|reflexivity].
  pose proof (lstrip_length c) as Hl. rewrite E in Hl.
  cbn [String.length] in Hl. lia.
Qed.

Lemma rstrip_fixed_last c :
  rstrip c = c → c ≠ EmptyString →
  ∃ b, last (chars c) = Some b ∧ is_space b = false.
Proof.
  induction c as [|a c IH]; [congruence|]. intros E _.
  cbn [rstrip] in E. destruct (rstrip c) as [|a' r] eqn:Er.
  - destruct (is_space a) eqn:Ea; [discriminate|].
    injection E as <-. now exists a.
  - injection E as E. destruct IH as (b & Hb & Hs); [exact E|now rewrite <- E|].
    exists b. split; [|exact Hs]. cbn [chars].
    destruct c; [discriminate|]. exact Hb.
Qed.

Lemma strip_clean c : truthy (strip c) = true → clean (strip c).
Proof.
  intros Ht.
  assert (Hne : strip c ≠ EmptyString) by (destruct (strip c); discriminate || congruence).
  destruct (lstrip_fixed_head (strip c)) as (a & Ha & Hsa);
    [apply PyStrFacts.lstrip_idem|exact Hne|].
  destruct (rstrip_fixed_last (strip c)) as (b & Hb & Hsb);
    [apply PyStrFacts.rstrip_lstrip, PyStrFacts.rstrip_idem|exact Hne|].
  unfold clean. now rewrite Ha, Hb.
Qed.

Lemma lstrip_chars s x : x ∈ chars (lstrip s) → x ∈ chars s.
Proof.
  induction s as [|c s IH]; cbn [lstrip chars]; [done|].
  destruct (is_space c); [|done]. intros Hx. apply elem_of_cons. auto.
Qed.

Lemma rstrip_chars s x : x ∈ chars (rstrip s) → x ∈ chars s.
Proof.
  induction s as [|c s IH]; cbn [rstrip chars]; [done|].
  destruct (rstrip s) as [|a r].
  - destruct (is_space c); cbn [chars]; [intros Hx; now apply elem_of_nil in Hx|].
    intros Hx. apply elem_of_cons in Hx as [->|Hx]; [apply list_elem_of_here|].
    now apply elem_of_nil in Hx.
  - cbn [chars] in *. intros Hx.
    apply elem_of_cons in Hx as [->|Hx]; [apply list_elem_of_here|].
    apply list_elem_of_further, IH. exact Hx.
Qed.

Lemma strip_chars s x : x ∈ chars (strip s) → x ∈ chars s.
Proof. intros Hx. now apply rstrip_chars, lstrip_chars. Qed.

Lemma split_lf_nonempty s : split_lf s ≠ [].
Proof.
  destruct s as [|c s]; cbn [split_lf]; [done|].
  destruct (Ascii.eqb c LF); [done|]. now destruct (split_lf s).
Qed.

(** No piece of [s.split("\n")] contains a line feed. *)
Lemma split_lf_pieces s : Forall (fun p => LF ∉ chars p) (split_lf s).
Proof.
  induction s as [|c s IH]; cbn [split_lf].
  - constructor; [|constructor]. cbn. apply not_elem_of_nil.
  - destruct (Ascii.eqb c LF) eqn:Ec.
    + constructor; [|exact IH]. cbn. apply not_elem_of_nil.
    + apply Ascii.eqb_neq in Ec.
      destruct (split_lf s) as [|p ps]; [constructor;[|constructor]|].
      * cbn. intros Hx. apply elem_of_cons in Hx as [Hx|Hx]; [congruence|].
        now apply elem_of_nil in Hx.
      * apply Forall_cons in IH as [Hp Hps]. constructor; [|exact Hps].
        cbn [chars]. intros Hx.
        apply elem_of_cons in Hx as [Hx|Hx]; [congruence|]. now apply Hp.
Qed.

End LineFacts.

(** Every command kept is the stripped form of an input line. *)
Lemma stripped_nonblank_elem l x :
  x ∈ stripped_nonblank l → ∃ y, y ∈ l ∧ x = PyStr.strip y.
Proof.
  induction l as [|c l IH]; cbn [stripped_nonblank].
  - intros Hx. now apply elem_of_nil in Hx.
  - destruct (PyStr.truthy (PyStr.strip c)).
    + intros Hx. apply elem_of_cons in Hx as [->|Hx].
      * exists c. split; [apply list_elem_of_here|reflexivity].
      * destruct (IH Hx) as (y & Hy & ->). exists y.
        split; [now apply list_elem_of_further|reflexivity].
    + intros Hx. destruct (IH Hx) as (y & Hy & ->). exists y.
      split; [now apply list_elem_of_further|reflexivity].
Qed.

Lemma stripped_nonblank_clean l : Forall clean (stripped_nonblank l).
Proof.
  induction l as [|c l IH]; cbn [stripped_nonblank]; [constructor|].
  destruct (PyStr.truthy (PyStr.strip c)) eqn:E; [|exact IH].
  constructor; [now apply LineFacts.strip_clean|exact IH].
Qed.

Lemma stripped_nonblank_no_lf l :
  Forall (fun p => PyStr.LF ∉ chars p) l →
  Forall (fun p => PyStr.LF ∉ chars p) (stripped_nonblank l).
Proof.
  intros Hl. apply Forall_forall. intros x Hx.
  destruct (stripped_nonblank_elem l x Hx) as (y & Hy & ->).
  intros Hin. apply LineFacts.strip_chars in Hin.
  rewrite Forall_forall in Hl. exact (Hl y Hy Hin).
Qed.

(** The order of the input is kept: the commands are a sublist of the
    stripped lines. *)
Lemma stripped_nonblank_sublist l :
  sublist (stripped_nonblank l) (map PyStr.strip l).
Proof.
  induction l as [|c l IH]; cbn [stripped_nonblank map]; [constructor|].
  destruct (PyStr.truthy (PyStr.strip c)); now constructor.
Qed.

(** X10. Every configuration line [config_command] sends is clean: it is
    not empty and neither its first nor its last character is white
    space; and when the input was one text block, no line sent contains a
    line feed. *)
Theorem sent_lines_clean dev s commands HOST USERNAME PASSWORD :
  Forall (fun cr =>
            match fst cr with
            | send_config_set l _ =>
                Forall clean l ∧
                match commands with
                | VStr _ => Forall (fun c => PyStr.LF ∉ chars c) l
                | _ => True
                end
            | _ => True
            end)
         (calls (snd (exec (config_command dev commands HOST USERNAME PASSWORD)
                           s))).
Proof.
  eapply Forall_impl;
    [exact (config_sends_normalized dev s commands HOST USERNAME PASSWORD)|].
  intros [c rp]; cbn [fst]. destruct c; try exact (fun _ => I).
  intros (Hn & _ & _). destruct commands as [|block|lines];
    cbn [normalize] in Hn; [discriminate| |]; injection Hn as <-.
  - split; [apply stripped_nonblank_clean|].
    apply stripped_nonblank_no_lf, stripped_nonblank_no_lf,
      LineFacts.split_lf_pieces.
  - split; [apply stripped_nonblank_clean|exact I].
Qed.

(** X11. Normalisation keeps the order of the input and drops only blank
    lines: the commands computed from a list are the stripped entries
    that are not empty, in their order. *)
Theorem normalize_keeps_order (lines : list string) :
  ∃ l, normalize (VList lines) = Some l ∧
       sublist l (map PyStr.strip lines) ∧
       ∀ x, x ∈ l ↔ x ≠ EmptyString ∧ ∃ y, y ∈ lines ∧ x = PyStr.strip y.
Proof.
  exists (stripped_nonblank lines). split; [reflexivity|].
  split; [apply stripped_nonblank_sublist|]. intros x. split.
  - intros Hx. split.
    + pose proof (stripped_nonblank_clean lines) as Hc.
      rewrite Forall_forall in Hc. specialize (Hc x Hx).
      intros ->. exact Hc.
    + now apply stripped_nonblank_elem.
  - intros (Hne & y & Hy & ->). induction lines as [|c l IH].
    + now apply elem_of_nil in Hy.
    + cbn [stripped_nonblank]. apply elem_of_cons in Hy as [->|Hy].
      * destruct (PyStr.strip c); [congruence|]. apply list_elem_of_here.
      * destruct (PyStr.truthy (PyStr.strip c));
          [apply list_elem_of_further|]; now apply IH.
Qed.

(** ** Two calls in a row *)

(** X12. Two calls on one client, in a row: the second call returns,
    calls and logs what it would on the client before the first call, and
    afterwards the client stores the credentials of the last call that
    passed its input check; nothing of an earlier call is left. *)
Theorem last_call_wins dev1 op1 H1 U1 P1 dev2 op2 H2 U2 P2 s :
  let s1 := self (snd (exec (run dev1 op1 H1 U1 P1) s)) in
  let r2 := exec (run dev2 op2 H2 U2 P2) s1 in
  observed r2 = observed (exec (run dev2 op2 H2 U2 P2) s) ∧
  self (snd r2)
  = (if accepted op2 then written H2 U2 P2 s
     else if accepted op1 then written H1 U1 P1 s else s).
Proof.
  intros s1 r2; subst r2 s1.
  destruct (run_facts dev1 op1 s H1 U1 P1) as (_ & _ & _ & ->).
  destruct (accepted op2) eqn:A2.
  - destruct (accepted op1).
    + rewrite exec_after_written by exact A2. split; [reflexivity|].
      destruct (run_facts dev2 op2 s H2 U2 P2) as (_ & _ & _ & ->).
      now rewrite A2.
    + split; [reflexivity|].
      destruct (run_facts dev2 op2 s H2 U2 P2) as (_ & _ & _ & ->).
      now rewrite A2.
  - destruct op2 as [c|c|c]; try discriminate A2. cbn [accepted] in A2.
    cbn [run]. rewrite !ping_rejects by exact A2.
    split; reflexivity.
Qed.

(** ** AgentClient: every failure becomes None *)

Ltac unfold_connector :=
  unfold Connector.exec, Connector.run, Connector.show_command,
    Connector.config_command, Connector.handler.

Ltac explore_connector dev r :=
  let Q := fresh "Q" in
  let HQ := fresh "HQ" in
  pattern r;
  match goal with |- ?P r => remember P as Q eqn:HQ end;
  subst r; unfold_connector; run_py dev; subst Q; cbv beta.

(** What stepping through the two methods of [AgentClient] gives, for any
    object. *)
Lemma connector_facts dev isE self op :
  let r := Connector.exec (Connector.run dev isE self op) in
  let tr := calls (snd r) in
  ((count opened tr ≤ 1)%nat ∧
   count is_exit tr = count opened tr ∧
   count is_disconnect tr = 0%nat) ∧
  Forall (fun cr =>
            match fst cr with
            | ConnectHandler kwargs => kwargs = Connector.device_info self
            | send_command c rt es sp sc =>
                op = Connector.Show c ∧ rt = None ∧ es = None ∧
                sp = None ∧ sc = None
            | send_config_set l rt => op = Connector.Configure l ∧ rt = None
            | _ => True
            end) tr ∧
  (∀ pre l rt rp post,
     tr = (pre ++ (send_config_set l rt, rp) :: post)%list →
     ∃ o1 o2,
       pre = [(ConnectHandler (Connector.device_info self), Returns o1);
              (enable, Returns o2)]).
Proof.
  intros r tr; subst tr.
  destruct op as [command|commands]; explore_connector dev r;
    cbn [fst snd calls]; (split; [|split]);
    try (repeat split; lia);
    try (repeat constructor; done);
    intros pre l rt rp post Htr; cut_trace pre Htr; eauto.
Qed.

(** The result of a call on an object that has a host entry, as every
    constructed object has. *)
Lemma connector_result dev isE self op h :
  Connector.device_info self !! "host" = Some h →
  let r := Connector.exec (Connector.run dev isE self op) in
  let tr := calls (snd r) in
  match last_fault tr with
  | Some e =>
      fst r = (if isE e then Normal VNone else Raised e)
  | None =>
      ∃ out, sent_output tr = Some out ∧ fst r = Normal (VStr out)
  end ∧
  match op with
  | Connector.Show _ => True
  | Connector.Configure commands =>
      ∀ o, tr !! 1%nat = Some (enable, Returns o) →
           ∃ rp, tr !! 2%nat = Some (send_config_set commands None, rp)
  end.
Proof.
  intros Hh r tr; subst tr.
  destruct op as [command|commands]; explore_connector dev r;
    try congruence; cbn [fst snd calls last_fault];
    (split; [|try exact I; intros o Ho; try discriminate Ho; eauto]);
    try reflexivity;
    try (match goal with E : isE _ = _ |- _ => rewrite E end;
         reflexivity);
    try (eexists; split; reflexivity).
Qed.

(** X13. On an [AgentClient] with a host entry, whichever exceptions
    derive from Exception ([isE]), [show_command] and [config_command]
    turn every failure that does into the result None, wherever the
    session layer raised it (connecting, enable, sending, closing); an
    exception that does not, such as KeyboardInterrupt, reaches the
    caller.  When no library call fails, the method returns the output of
    its send call. *)
Theorem connector_failures_become_None dev isE self op h :
  Connector.device_info self !! "host" = Some h →
  let r := Connector.exec (Connector.run dev isE self op) in
  match last_fault (calls (snd r)) with
  | Some e =>
      fst r = (if isE e then Normal VNone else Raised e)
  | None =>
      ∃ out, sent_output (calls (snd r)) = Some out ∧
             fst r = Normal (VStr out)
  end.
Proof. intros Hh. exact (proj1 (connector_result dev isE self op h Hh)). Qed.

Lemma connector_failures_become_None_witness :
  let self := Connector.__init__ (VStr "10.0.0.1") (VStr "admin")
                (VStr "cisco") VNone in
  let dev : device :=
    fun _ c => match c with
               | enable => Raises (OtherException "ValueError" "no enable")
               | _ => Returns ""
               end in
  let isE : exn → bool :=
    fun e => match e with
             | OtherException cls _ => negb (String.eqb cls "KeyboardInterrupt")
             | _ => true
             end in
  let r := Connector.exec
             (Connector.run dev isE self (Connector.Configure ["hostname R1"])) in
  Connector.device_info self !! "host" = Some (VStr "10.0.0.1") ∧
  match last_fault (calls (snd r)) with
  | Some e =>
      fst r = (if isE e then Normal VNone else Raised e)
  | None =>
      ∃ out, sent_output (calls (snd r)) = Some out ∧
             fst r = Normal (VStr out)
  end.
Proof.
  intros self dev isE r. split; [reflexivity|].
  apply (connector_failures_become_None dev isE self
           (Connector.Configure ["hostname R1"]) (VStr "10.0.0.1")).
  reflexivity.
Defined.

(** X14. [AgentClient] opens at most one session per call and closes it
    exactly once, by the exit of the context manager, on every path; it
    never calls [disconnect()] itself. *)
Theorem connector_session_closed_once dev isE self op :
  let tr := calls (snd (Connector.exec (Connector.run dev isE self op))) in
  (count opened tr ≤ 1)%nat ∧
  count is_disconnect tr = 0%nat ∧
  closes tr = count opened tr.
Proof.
  intros tr. unfold closes.
  destruct (connector_facts dev isE self op) as ((Hle & Hexit & Hdis) & _).
  fold tr in Hle, Hexit, Hdis. repeat split; [exact Hle|exact Hdis|].
  rewrite Hexit, Hdis. reflexivity.
Qed.

(** X15. [AgentClient.config_command] hands the list it was given to
    [send_config_set] as it is: no entry is stripped or dropped and an
    empty list is not rejected.  The list is sent only after the session
    was opened with the object's [device_info] and [enable] returned, and
    once [enable] has returned it is always sent. *)
Theorem connector_config_verbatim dev isE self commands h :
  Connector.device_info self !! "host" = Some h →
  let tr := calls (snd (Connector.exec
                          (Connector.config_command dev isE self commands))) in
  (∀ pre l rt rp post,
     tr = (pre ++ (send_config_set l rt, rp) :: post)%list →
     l = commands ∧ rt = None ∧
     ∃ o1 o2,
       pre = [(ConnectHandler (Connector.device_info self), Returns o1);
              (enable, Returns o2)]) ∧
  (∀ o, tr !! 1%nat = Some (enable, Returns o) →
        ∃ rp, tr !! 2%nat = Some (send_config_set commands None, rp)).
Proof.
  intros Hh tr. split.
  - intros pre l rt rp post Htr.
    destruct (connector_facts dev isE self (Connector.Configure commands))
      as (_ & Hall & Hpre).
    cbn [Connector.run] in Hall, Hpre. fold tr in Hall, Hpre. split_and!.
    + rewrite Htr in Hall. apply Forall_app in Hall as [_ Hall].
      apply Forall_cons in Hall as [[[= ->] _] _]. reflexivity.
    + rewrite Htr in Hall. apply Forall_app in Hall as [_ Hall].
      now apply Forall_cons in Hall as [[_ ->] _].
    + exact (Hpre pre l rt rp post Htr).
  - exact (proj2 (connector_result dev isE self (Connector.Configure commands)
                    h Hh)).
Qed.

Lemma connector_config_verbatim_witness :
  let self := Connector.__init__ (VStr "10.0.0.1") (VStr "admin")
                (VStr "cisco") VNone in
  let tr := calls (snd (Connector.exec
                          (Connector.config_command (responsive "ok")
                             (fun _ => true) self ["  "; ""]))) in
  Connector.device_info self !! "host" = Some (VStr "10.0.0.1") ∧
  (∀ pre l rt rp post,
     tr = (pre ++ (send_config_set l rt, rp) :: post)%list →
     l = ["  "; ""] ∧ rt = None ∧
     ∃ o1 o2,
       pre = [(ConnectHandler (Connector.device_info self), Returns o1);
              (enable, Returns o2)]) ∧
  (∀ o, tr !! 1%nat = Some (enable, Returns o) →
        ∃ rp, tr !! 2%nat = Some (send_config_set ["  "; ""] None, rp)).
Proof.
  intros self tr. split; [reflexivity|].
  apply (connector_config_verbatim (responsive "ok") (fun _ => true) self
           ["  "; ""] (VStr "10.0.0.1")).
  reflexivity.
Defined.
